(** * Reconciling Gradescope assignments with a CalDAV task list

    A shallow embedding of [caldav_sync.py] and [gradescope.py], and the
    properties of the reconciliation loop [sync_todos], of the due-date
    normalizer [_normalize_dt] and of the assignment mapping [make_todo].

    Python values are modelled by what the program observes of them.
    Exceptions are values of [exn] carried by the result type [res];
    the stateful loop runs in a state-and-exception monad [M] whose state
    holds the uid map, the action list and the trace of collaborator
    calls. *)

From Stdlib Require Import ZArith String Ascii Bool List Lia.
From stdpp Require Import base option gmap strings list fin_maps.
Import ListNotations.

Open Scope string_scope.

(** ** Exceptions and results *)

(** An exception, as the handlers of the program observe it: whether it is
    an instance of [TypeError] (line 257) and what [str(e)] gives (lines
    226 and 281).  Only instances of [Exception] are modelled. *)
Record exn := Exn { is_TypeError : bool; exn_str : string }.

Inductive res (A : Type) : Type :=
| Ret (a : A)
| Raise (e : exn).
Arguments Ret {A} a.
Arguments Raise {A} e.

(** [try: body / except Exception: handler] on a computation without state. *)
Definition try_except {A} (body : res A) (handler : exn -> res A) : res A :=
  match body with
  | Ret a => Ret a
  | Raise e => handler e
  end.

(** ** Dates and date-times *)

Record date := Date { year : Z; month : Z; day : Z }.

(** The [tzinfo] of a date-time, as [==] sees it: which object it is
    ([zone_id]), what its [utcoffset] gives for this date-time ([None],
    or an offset from UTC in microseconds), and what it gives for the same
    date-time with the other value of [fold]. *)
Record zone := Zone {
  zone_id : N;
  offset : option Z;
  offset_other_fold : option Z
}.

(** [tzinfo] is [None] for a date-time without a time zone. *)
Record datetime := DateTime {
  dt_year : Z; dt_month : Z; dt_day : Z;
  hour : Z; minute : Z; second : Z; microsecond : Z;
  tzinfo : option zone
}.

(** [t.utcoffset()] and [t.replace(fold=not t.fold).utcoffset()] *)
Definition utcoffset (t : datetime) : option Z :=
  match tzinfo t with
  | Some z => offset z
  | None => None
  end.

Definition utcoffset_other_fold (t : datetime) : option Z :=
  match tzinfo t with
  | Some z => offset_other_fold z
  | None => None
  end.

(** [datetime(y, m, d)]: midnight, without a time zone. *)
Definition datetime_ymd (y m d : Z) : datetime :=
  {| dt_year := y; dt_month := m; dt_day := d;
     hour := 0; minute := 0; second := 0; microsecond := 0;
     tzinfo := None |}.

Definition is_leap (y : Z) : bool :=
  ((y mod 4 =? 0) && (negb (y mod 100 =? 0) || (y mod 400 =? 0)))%Z.

Definition days_before_year (y : Z) : Z :=
  (let p := y - 1 in p * 365 + p / 4 - p / 100 + p / 400)%Z.

Definition days_before_month (y m : Z) : Z :=
  (nth (Z.to_nat m) [0; 0; 31; 59; 90; 120; 151; 181; 212; 243; 273; 304; 334] 0
   + (if (2 <? m) && is_leap y then 1 else 0))%Z.

Definition ymd2ord (y m d : Z) : Z :=
  (days_before_year y + days_before_month y m + d)%Z.

(** The wall-clock fields of a date-time as microseconds since the epoch
    of the proleptic calendar. *)
Definition wall_clock (t : datetime) : Z :=
  ((((ymd2ord (dt_year t) (dt_month t) (dt_day t) * 24 + hour t) * 60
      + minute t) * 60 + second t) * 1000000 + microsecond t)%Z.

Definition same_fields (a b : datetime) : bool :=
  ((dt_year a =? dt_year b) && (dt_month a =? dt_month b)
   && (dt_day a =? dt_day b) && (hour a =? hour b)
   && (minute a =? minute b) && (second a =? second b)
   && (microsecond a =? microsecond b))%Z.

(** [a.tzinfo is b.tzinfo] *)
Definition same_tzinfo (a b : datetime) : bool :=
  match tzinfo a, tzinfo b with
  | None, None => true
  | Some za, Some zb => (zone_id za =? zone_id zb)%N
  | _, _ => false
  end.

(** [x == y] on two results of [utcoffset()] *)
Definition offset_eq (x y : option Z) : bool :=
  match x, y with
  | None, None => true
  | Some ox, Some oy => (ox =? oy)%Z
  | _, _ => false
  end.

(** [a == b] on two date-times, as [datetime.__eq__] computes it.  With
    one and the same [tzinfo] object (or none on either side) the fields
    are compared, and nothing else.  Otherwise a value whose offset
    depends on [fold] is equal to nothing; with equal offsets the fields
    are compared; a value without an offset is not equal to one with an
    offset; and two values with different offsets are equal when they
    are the same instant. *)
Definition datetime_eq (a b : datetime) : bool :=
  if same_tzinfo a b then same_fields a b
  else if negb (offset_eq (utcoffset a) (utcoffset_other_fold a)) then false
  else if negb (offset_eq (utcoffset b) (utcoffset_other_fold b)) then false
  else if offset_eq (utcoffset a) (utcoffset b) then same_fields a b
  else
    match utcoffset a, utcoffset b with
    | Some oa, Some ob => (wall_clock a - oa =? wall_clock b - ob)%Z
    | _, _ => false
    end.

(** [x == y] on the results of the normalizer, where [None] is Python's
    [None]. *)
Definition opt_datetime_eq (x y : option datetime) : bool :=
  match x, y with
  | Some a, Some b => datetime_eq a b
  | None, None => true
  | _, _ => false
  end.

(** [x is None] on the results of the normalizer. *)
Definition is_none (x : option datetime) : bool :=
  match x with
  | None => true
  | Some _ => false
  end.

(** ** The values a DUE property can hold *)

(** What [_normalize_dt] can tell apart: [None]; a [datetime]; a [date]
    that is not a [datetime]; an object whose attribute [dt] reads [inner]
    (icalendar's [vDDDTypes]); an object whose [dt] property raises; and
    any other object, which has no attribute [dt]. *)
Inductive pyval : Type :=
| PNone
| PDateTime (t : datetime)
| PDate (d : date)
| PWrapper (inner : pyval)
| PFaulty (e : exn)
| PPlain.

Definition is_None (v : pyval) : bool :=
  match v with PNone => true | _ => false end.

(** ** [_normalize_dt] (caldav_sync.py, lines 35-59) *)

(** The body of the [try] block.  [Ret (Some r)] is a [return r] inside
    the block; [Ret None] is the block running to its end without a
    [return]; [Raise e] is an exception leaving the block.  [hasattr]
    lets every exception but [AttributeError] through, so reading the
    [dt] of a [PFaulty] object raises inside the block. *)
Definition normalize_try (val : pyval) : res (option datetime) :=
  match val with
  | PDateTime t => Ret (Some t)
  | PDate d => Ret (Some (datetime_ymd (year d) (month d) (day d)))
  | PWrapper dt =>
      match dt with
      | PDateTime t => Ret (Some t)
      | PDate d => Ret (Some (datetime_ymd (year d) (month d) (day d)))
      | _ => Ret None
      end
  | PFaulty e => Raise e
  | PNone | PPlain => Ret None
  end.

(** The whole function: after [except Exception: pass] and after a block
    that ends without returning, control reaches the final [return None]. *)
Definition _normalize_dt (val : pyval) : res (option datetime) :=
  if is_None val then Ret None
  else try_except (normalize_try val) (fun _ => Ret None).

(** The value [_normalize_dt] returns. *)
Definition normalized (val : pyval) : option datetime :=
  match _normalize_dt val with
  | Ret r => r
  | Raise _ => None
  end.

(** ** Calendar components *)

(** icalendar components are case-insensitive dictionaries: every key is
    stored in upper case. *)
Definition upper_ascii (c : ascii) : ascii :=
  let n := nat_of_ascii c in
  if (97 <=? n)%nat && (n <=? 122)%nat then ascii_of_nat (n - 32) else c.

Fixpoint upper (s : string) : string :=
  match s with
  | EmptyString => EmptyString
  | String c s' => String (upper_ascii c) (upper s')
  end.

(** A component: its [name] (VTODO, VEVENT, ...), its text properties
    (UID, SUMMARY, STATUS, DESCRIPTION, ...: values on which [str] is the
    identity), its DUE value and its category tags. *)
Record Component := {
  name : string;
  props : gmap string string;
  DUE : pyval;
  CATEGORIES : list string
}.

(** [c.get(k)] and [c[k] = v] on a text property. *)
Definition comp_get (c : Component) (k : string) : option string :=
  props c !! upper k.

Definition comp_set (c : Component) (k v : string) : Component :=
  {| name := name c; props := <[upper k := v]> (props c);
     DUE := DUE c; CATEGORIES := CATEGORIES c |}.

(** [str(c.get(k)) if c.get(k) is not None else ''] *)
Definition text_or_empty (c : Component) (k : string) : string :=
  match comp_get c k with
  | Some s => s
  | None => ""
  end.

(** [str(c.get(k))], where [str(None)] is the text [None]. *)
Definition str_get (c : Component) (k : string) : string :=
  match comp_get c k with
  | Some s => s
  | None => "None"
  end.

(** Truth value of an optional text: [None] and the empty text are false. *)
Definition truthy (o : option string) : bool :=
  match o with
  | Some s => negb (String.eqb s "")
  | None => false
  end.

(** ** The collaborators *)

(** A server-side todo object of the caldav client.  [parsed] is what the
    attribute probing and the parser of lines 72-102 end with: the
    components of the calendar in [walk()] order, or the exception
    raised.  The three booleans are the [hasattr] tests of lines 253-264
    and [obj_url] is [getattr(server_obj, 'url', None)]. *)
Record ServerObj := {
  parsed : res (list Component);
  obj_save : bool;
  obj_put : bool;
  obj__put : bool;
  obj_url : option string
}.

(** The target calendar: the [hasattr] tests of lines 213-221 and 270. *)
Record Calendar := {
  cal_add_todo : bool;
  cal_add_event : bool;
  cal_save : bool;
  cal_client : bool
}.

(** The result of [to_ical()] when it returns, modelled by the content
    it serializes. *)
Inductive ical : Type :=
| todo_to_ical (c : Component)
| calendar_to_ical (cal : list Component).

(** The calls made on the collaborators. *)
Inductive Call : Type :=
| calendar_add_todo (data : ical)
| calendar_add_event (data : ical)
| calendar_save (data : ical)
| server_obj_save (o : ServerObj) (data : ical)
| server_obj_put (o : ServerObj) (data : ical)
| server_obj__put (o : ServerObj) (data : ical)
| client_put (url : string) (data : ical).

(** The behaviour of the collaborators.  [remote]: given the calls made
    so far, a call on the calendar, on a server todo or on the client
    returns ([None]) or raises ([Some e]).  [codec]: [to_ical()] on a
    content returns ([None]) or raises ([Some e]). *)
Record Env := {
  remote : list Call -> Call -> option exn;
  codec : ical -> option exn
}.

(** ** [_extract_vtodo_and_calendar] (lines 62-107) *)

(** An entry of the uid map, [(server_obj, server_vtodo, server_cal)].
    [server_vtodo] is a component of [server_cal], so that writing to it
    changes what [server_cal.to_ical()] gives: the calendar is kept as the
    components before the VTODO, the VTODO, and those after it. *)
Record ServerEntry := {
  server_obj : ServerObj;
  before : list Component;
  server_vtodo : Component;
  after : list Component
}.

Definition server_cal (e : ServerEntry) : list Component :=
  before e ++ server_vtodo e :: after e.

(** The loop of lines 104-106: the first component named VTODO. *)
Fixpoint find_vtodo (seen cal : list Component)
  : option (list Component * Component * list Component) :=
  match cal with
  | [] => None
  | comp :: rest =>
      if String.eqb (name comp) "VTODO" then Some (seen, comp, rest)
      else find_vtodo (seen ++ [comp]) rest
  end.

(** The calendar returned is given by its VTODO and the components
    around it. *)
Definition _extract_vtodo_and_calendar (server_todo_obj : ServerObj)
  : res (list Component * Component * list Component) :=
  match parsed server_todo_obj with
  | Raise e => Raise e
  | Ret parsed_cal =>
      match find_vtodo [] parsed_cal with
      | Some found => Ret found
      | None =>
          Raise (Exn false "No VTODO component found inside server calendar data")
      end
  end.

(** ** The uid map (lines 185-194) *)

Definition add_server_todo (server_map : gmap string ServerEntry) (s : ServerObj)
  : gmap string ServerEntry :=
  match _extract_vtodo_and_calendar s with
  | Ret (b, server_vtodo, a) =>
      let uid := comp_get server_vtodo "UID" in
      match uid with
      | Some u =>
          if truthy uid
          then <[u := {| server_obj := s; before := b;
                         server_vtodo := server_vtodo; after := a |}]> server_map
          else server_map
      | None => server_map
      end
  | Raise _ => server_map
  end.

Definition build_server_map (server_todos : list ServerObj) : gmap string ServerEntry :=
  fold_left add_server_todo server_todos ∅.

(** ** Actions, state and the monad of the loop *)

(** One entry of the list [sync_todos] returns: the dictionary with its
    keys [uid] and [action] and, when present, its third key with its
    value ([reason], [error] or [server_status]). *)
Record Action := {
  uid : option string;
  action : string;
  detail : option (string * string)
}.

(** What the loop reads and writes: the uid map, whose entries are
    changed in place, the list [actions], and the calls made so far. *)
Record State := {
  server_map : gmap string ServerEntry;
  actions : list Action;
  calls : list Call
}.

(** A statement of the loop: it ends normally or with an exception, and
    leaves a state either way (nothing is rolled back). *)
Definition M (A : Type) : Type := State -> res A * State.

Definition ret {A} (a : A) : M A := fun st => (Ret a, st).

Definition bind {A B} (m : M A) (k : A -> M B) : M B :=
  fun st =>
    match m st with
    | (Ret a, st') => k a st'
    | (Raise e, st') => (Raise e, st')
    end.

Notation "'let!' x ':=' m 'in' k" := (bind m (fun x => k))
  (at level 10, x name, m at level 100, k at level 200).

(** A computation without state, run as a statement. *)
Definition lift {A} (r : res A) : M A := fun st => (r, st).

(** [try: body / except Exception as e: handler] *)
Definition try_except_M {A} (body : M A) (handler : exn -> M A) : M A :=
  fun st =>
    match body st with
    | (Ret a, st') => (Ret a, st')
    | (Raise e, st') => handler e st'
    end.

(** [try: body / except TypeError: handler] *)
Definition try_except_TypeError {A} (body : M A) (handler : M A) : M A :=
  fun st =>
    match body st with
    | (Ret a, st') => (Ret a, st')
    | (Raise e, st') => if is_TypeError e then handler st' else (Raise e, st')
    end.

(** [actions.append(a)] *)
Definition append (a : Action) : M unit :=
  fun st =>
    (Ret tt, {| server_map := server_map st;
                actions := actions st ++ [a];
                calls := calls st |}).

(** [server_map.get(uid)] *)
Definition lookup_entry (u : string) : M (option ServerEntry) :=
  fun st => (Ret (server_map st !! u), st).

(** The entry under [u] as it is after a write to one of its objects. *)
Definition store (u : string) (e : ServerEntry) : M unit :=
  fun st =>
    (Ret tt, {| server_map := <[u := e]> (server_map st);
                actions := actions st;
                calls := calls st |}).

(** [for x in xs: body] *)
Fixpoint for_each {A} (body : A -> M unit) (xs : list A) : M unit :=
  match xs with
  | [] => ret tt
  | x :: rest => let! _ := body x in for_each body rest
  end.

Section Sync.

Context (env : Env) (calendar : Calendar).

(** A call on a collaborator: it is recorded, and returns or raises as
    the remote side decides. *)
Definition invoke (c : Call) : M unit :=
  fun st =>
    let st' := {| server_map := server_map st;
                  actions := actions st;
                  calls := calls st ++ [c] |} in
    match remote env (calls st) c with
    | None => (Ret tt, st')
    | Some e => (Raise e, st')
    end.

(** [x.to_ical()] on the content [content]. *)
Definition to_ical (content : ical) : M ical :=
  fun st =>
    match codec env content with
    | None => (Ret content, st)
    | Some e => (Raise e, st)
    end.

(** Lines 209-230: the todo is not on the server.  The serialization of
    line 210 is before the [try] of line 212: its exception ends the
    loop. *)
Definition create_on_server (local : Component) (local_uid : string) : M unit :=
  let! ical_bytes := to_ical (todo_to_ical local) in
  let! created :=
    try_except_M
      (if cal_add_todo calendar then
         let! _ := invoke (calendar_add_todo ical_bytes) in ret (Some true)
       else if cal_add_event calendar then
         let! _ := invoke (calendar_add_event ical_bytes) in ret (Some true)
       else if cal_save calendar then
         let! _ := invoke (calendar_save ical_bytes) in ret (Some true)
       else ret (Some false))
      (fun e =>
         let! _ := append {| uid := Some local_uid; action := "create_failed";
                             detail := Some ("error", exn_str e) |} in
         ret None)
  in
  match created with
  | None => ret tt
  | Some created =>
      append {| uid := Some local_uid;
                action := if created then "created" else "create_attempted";
                detail := None |}
  end.

(** Lines 246-281: the summary or the due date differs.  The
    serialization of line 250 is inside the [try]. *)
Definition set_needs_action (local_uid : string) (entry : ServerEntry) : M unit :=
  try_except_M
    (let entry' :=
       {| server_obj := server_obj entry;
          before := before entry;
          server_vtodo := comp_set (server_vtodo entry) "STATUS" "NEEDS-ACTION";
          after := after entry |} in
     let! _ := store local_uid entry' in
     let! updated_ical := to_ical (calendar_to_ical (server_cal entry')) in
     let o := server_obj entry in
     let! updated :=
       if obj_save o then
         try_except_TypeError
           (let! _ := invoke (server_obj_save o updated_ical) in ret true)
           (let! _ := invoke (server_obj_save o updated_ical) in ret true)
       else if obj_put o then
         let! _ := invoke (server_obj_put o updated_ical) in ret true
       else if obj__put o then
         let! _ := invoke (server_obj__put o updated_ical) in ret true
       else
         match obj_url o with
         | Some url =>
             if truthy (obj_url o) && cal_client calendar then
               try_except_M
                 (let! _ := invoke (client_put url updated_ical) in ret true)
                 (fun _ => ret false)
             else ret false
         | None => ret false
         end
     in
     append {| uid := Some local_uid;
               action := if updated then "set_needs_action"
                         else "set_needs_action_attempted";
               detail := None |})
    (fun e =>
       append {| uid := Some local_uid; action := "update_failed";
                 detail := Some ("error", exn_str e) |}).

(** Lines 199-281: the body of the loop over the local todos. *)
Definition sync_one (local : Component) : M unit :=
  let local_uid := comp_get local "UID" in
  let local_summary := text_or_empty local "SUMMARY" in
  let! local_due := lift (_normalize_dt (DUE local)) in
  match local_uid with
  | None =>
      append {| uid := None; action := "skipped";
                detail := Some ("reason", "local todo missing UID") |}
  | Some local_uid =>
      let! server_entry := lookup_entry local_uid in
      match server_entry with
      | None => create_on_server local local_uid
      | Some entry =>
          let server_summary := text_or_empty (server_vtodo entry) "SUMMARY" in
          let! server_due := lift (_normalize_dt (DUE (server_vtodo entry))) in
          let same_summary := String.eqb server_summary local_summary in
          let same_due :=
            opt_datetime_eq server_due local_due
            || (is_none server_due && is_none local_due) in
          if same_summary && same_due then
            append {| uid := Some local_uid; action := "preserved_server_status";
                      detail := Some ("server_status",
                                      str_get (server_vtodo entry) "STATUS") |}
          else set_needs_action local_uid entry
      end
  end.

(** Lines 185-283.  The calendar that lines 137-172 choose and the server
    todos that lines 175-182 list are given. *)
Definition sync_loop (server_todos : list ServerObj) (todos : list Component)
  : res unit * State :=
  for_each sync_one todos
    {| server_map := build_server_map server_todos; actions := []; calls := [] |}.

Definition sync_todos (server_todos : list ServerObj) (todos : list Component)
  : res (list Action) :=
  match sync_loop server_todos todos with
  | (Ret _, st) => Ret (actions st)
  | (Raise e, _) => Raise e
  end.

End Sync.

(** ** [make_todo] (gradescope.py, lines 22-31) *)

(** What [make_todo] reads of an assignment of the Gradescope client and
    of its course: [assignment.assignment_id], [assignment.name],
    [assignment.due_date] (a [datetime] or [None]),
    [assignment.submissions_status], and [course.name]. *)
Record Assignment := {
  assignment_id : string;
  assignment_name : string;
  due_date : option datetime;
  submissions_status : string
}.

Record Course := { course_name : string }.

(** [icalendar.cal.Todo()]: an empty VTODO component. *)
Definition Todo : Component :=
  {| name := "VTODO"; props := ∅; DUE := PNone; CATEGORIES := [] |}.

(** [todo.end = value]: icalendar stores a date-time under DUE wrapped in
    its [vDDDTypes], whose [dt] is the value, and removes DUE for [None]. *)
Definition set_end (todo : Component) (value : option datetime) : Component :=
  {| name := name todo; props := props todo;
     DUE := match value with
            | Some t => PWrapper (PDateTime t)
            | None => PNone
            end;
     CATEGORIES := CATEGORIES todo |}.

(** [todo.categories = value] *)
Definition set_categories (todo : Component) (value : list string) : Component :=
  {| name := name todo; props := props todo; DUE := DUE todo; CATEGORIES := value |}.

Definition make_todo (course_id : string) (course : Course) (assignment : Assignment)
  : Component :=
  let todo := Todo in
  let todo := comp_set todo "UID" ("gradescope-" ++ assignment_id assignment) in
  let todo := set_end todo (due_date assignment) in
  let todo := set_categories todo ["Gradescope"; course_name course] in
  let todo := comp_set todo "summary" (assignment_name assignment) in
  let todo := comp_set todo "description"
                ("https://www.gradescope.com/courses/" ++ course_id
                 ++ "/assignments/" ++ assignment_id assignment) in
  let todo := comp_set todo "status"
                (if String.eqb (submissions_status assignment) "Submitted"
                 then "COMPLETED" else "NEEDS-ACTION") in
  todo.

(** ** Results in sequence *)

Definition res_bind {A B} (r : res A) (k : A -> res B) : res B :=
  match r with
  | Ret a => k a
  | Raise e => Raise e
  end.

Notation "'let?' x ':=' r 'in' k" := (res_bind r (fun x => k))
  (at level 10, x name, r at level 100, k at level 200).

(** ** The probing of a server todo (lines 72-102) *)

(** The value of [vobject_instance] or of [instance], when the attribute
    is there and is not [None]: an icalendar [Calendar], or another
    object, of which the program asks [to_ical()] and, should that or the
    parsing of its result raise, which it hands to the parser as it is
    ([direct] is what the parser then gives). *)
Inductive instance_obj : Type :=
| a_calendar (cal : list Component)
| a_foreign (to_ical : res string) (direct : res (list Component)).

(** One of the attributes [data], [_data], [raw], [ical], [_get_data]:
    missing, a value ([None] or a text), or something to call, with the
    outcome of the call. *)
Inductive raw_attr : Type :=
| raw_missing
| raw_value (v : option string)
| raw_callable (outcome : res (option string)).

(** What an attribute gives to [raw] in the loop of lines 81-89, if it
    gives anything. *)
Definition raw_yield (a : raw_attr) : option (option string) :=
  match a with
  | raw_missing => None
  | raw_value v => Some v
  | raw_callable (Ret v) => Some v
  | raw_callable (Raise _) => None
  end.

(** A server todo object as lines 72-91 and 253-269 see it. *)
Record TodoObj := {
  o_vobject_instance : option instance_obj;
  o_instance : option instance_obj;
  o_data : raw_attr;
  o__data : raw_attr;
  o_raw : raw_attr;
  o_ical : raw_attr;
  o__get_data : raw_attr;
  o_save : bool;
  o_put : bool;
  o__put : bool;
  o_url : option string
}.

(** The loop of lines 81-89, with [raw] as it is so far: a missing
    attribute and a raising call leave [raw] as it is, a value takes its
    place, and a true one ends the loop. *)
Fixpoint probe_raw (raw : option string) (attrs : list raw_attr) : option string :=
  match attrs with
  | [] => raw
  | raw_missing :: rest => probe_raw raw rest
  | raw_value v :: rest => if truthy v then v else probe_raw v rest
  | raw_callable (Ret v) :: rest => if truthy v then v else probe_raw v rest
  | raw_callable (Raise _) :: rest => probe_raw raw rest
  end.

Section Probe.

(** [Calendar.from_ical], taken to give a [Calendar] when it returns. *)
Context (from_ical : string -> res (list Component)).

(** Lines 72-102: what [parsed] stands for. *)
Definition probe (server_todo_obj : TodoObj) : res (list Component) :=
  let? parsed_cal :=
    match o_vobject_instance server_todo_obj with
    | Some i => Ret (Some i)
    | None =>
        match o_instance server_todo_obj with
        | Some i => Ret (Some i)
        | None =>
            let raw :=
              probe_raw None
                [o_data server_todo_obj; o__data server_todo_obj;
                 o_raw server_todo_obj; o_ical server_todo_obj;
                 o__get_data server_todo_obj] in
            match raw with
            | Some r => let? cal := from_ical r in Ret (Some (a_calendar cal))
            | None => Ret None
            end
        end
    end in
  match parsed_cal with
  | None =>
      Raise (Exn false
        "Unable to extract iCalendar data from server todo object; adjust this module for your caldav client API")
  | Some (a_calendar cal) => Ret cal
  | Some (a_foreign to_ical direct) =>
      try_except (let? data := to_ical in from_ical data) (fun _ => direct)
  end.

(** The server todo as the loop of [sync_todos] sees it. *)
Definition server_todo (o : TodoObj) : ServerObj :=
  {| parsed := probe o; obj_save := o_save o; obj_put := o_put o;
     obj__put := o__put o; obj_url := o_url o |}.

End Probe.

(** ** The start of [sync_todos] (lines 136-183) *)

(** [os.environ[key]]; the text of a [KeyError] is the key in quotes. *)
Definition environ_item (environ : gmap string string) (key : string) : res string :=
  match environ !! key with
  | Some v => Ret v
  | None => Raise (Exn false ("'" ++ key ++ "'"))
  end.

(** What [get_properties] gives when it returns: a dictionary, by its
    values in order, or another value, [None] or a text. *)
Inductive prop_result : Type :=
| prop_dict (values : list (option string))
| prop_other (value : option string).

(** [getattr(c, 'get_properties', None)]: missing or false, true but not
    to be called, or a method with the outcome of its call. *)
Inductive get_properties_attr : Type :=
| gp_missing
| gp_not_callable
| gp_method (outcome : res prop_result).

(** A calendar of the account: what lines 152-182 ask of it, and the
    methods lines 213-270 test for. *)
Record CalendarObj := {
  c_get_properties : get_properties_attr;
  c_name : option string;
  c_todos : option (res (list ServerObj));
  c_events : option (res (list ServerObj));
  c_methods : Calendar
}.

(** Lines 153-167: the [name] under which a calendar is compared. *)
Definition display_name (c : CalendarObj) : option string :=
  let displayname :=
    match c_get_properties c with
    | gp_missing => prop_other (c_name c)
    | gp_not_callable => prop_other None
    | gp_method (Ret r) => r
    | gp_method (Raise _) => prop_other (c_name c)
    end in
  match displayname with
  | prop_dict [] => None
  | prop_dict (v :: _) => v
  | prop_other v => v
  end.

(** [name and name == calendar_name] *)
Definition name_matches (c : CalendarObj) (calendar_name : string) : bool :=
  truthy (display_name c)
  && bool_decide (display_name c = Some calendar_name).

(** The loop of lines 152-170. *)
Fixpoint find_named (calendar_name : string) (calendars : list CalendarObj)
  : option CalendarObj :=
  match calendars with
  | [] => None
  | c :: rest =>
      if name_matches c calendar_name then Some c
      else find_named calendar_name rest
  end.

(** Lines 147-172. *)
Definition choose_calendar (calendar_name : option string)
    (calendars : list CalendarObj) : res CalendarObj :=
  match calendars with
  | [] => Raise (Exn false "No calendars found for the provided account")
  | first :: _ =>
      let calendar :=
        match calendar_name with
        | Some n => if truthy calendar_name then find_named n calendars else None
        | None => None
        end in
      match calendar with
      | Some c => Ret c
      | None => Ret first
      end
  end.

(** Lines 175-182. *)
Definition list_server_todos (calendar : CalendarObj) : list ServerObj :=
  match (match c_todos calendar with Some r => r | None => Ret [] end) with
  | Ret server_todos => server_todos
  | Raise _ =>
      match (match c_events calendar with Some r => r | None => Ret [] end) with
      | Ret server_todos => server_todos
      | Raise _ => []
      end
  end.

(** The whole of [sync_todos], lines 136-283.  [connect url username
    password] is what [DAVClient(...).principal().calendars()] ends
    with. *)
Definition sync_todos_main (environ : gmap string string)
    (connect : string -> string -> string -> res (list CalendarObj))
    (env : Env) (todos : list Component) : res (list Action) :=
  let? caldav_url := environ_item environ "CALDAV_URL" in
  let? username := environ_item environ "CALDAV_USERNAME" in
  let? password := environ_item environ "CALDAV_PASSWORD" in
  let calendar_name := environ !! "CALDAV_CALENDAR_NAME" in
  let? calendars := connect caldav_url username password in
  let? calendar := choose_calendar calendar_name calendars in
  sync_todos env (c_methods calendar) (list_server_todos calendar) todos.

(** ** [sync] and [sync_course] (gradescope.py, lines 9-20) *)

(** A course of the account: what [sync] reads of it beside its name. *)
Record CourseEntry := {
  course : Course;
  semester : string;
  course_year : string
}.

(** The Gradescope connection: whether [login] raises, the courses of
    the student, in the order of the dictionary, and the assignments of
    a course. *)
Record GSConnection := {
  login : string -> string -> option exn;
  get_courses : res (list (string * CourseEntry));
  get_assignments : string -> res (list Assignment)
}.

Definition sync_course (connection : GSConnection) (course_id : string)
    (c : Course) : res (list Component) :=
  let? assignments := get_assignments connection course_id in
  Ret (map (make_todo course_id c) assignments).

(** The list built course by course. *)
Fixpoint sync_courses (connection : GSConnection)
    (courses : list (string * CourseEntry)) : res (list Component) :=
  match courses with
  | [] => Ret []
  | (course_id, c) :: rest =>
      let? items := sync_course connection course_id (course c) in
      let? others := sync_courses connection rest in
      Ret (items ++ others)%list
  end.

(** [this_year] is [str(datetime.date.today().year)]. *)
Definition sync (environ : gmap string string) (this_year : string)
    (connection : GSConnection) : res (list Component) :=
  let? email := environ_item environ "GRADESCOPE_EMAIL" in
  let? password := environ_item environ "GRADESCOPE_PASSWORD" in
  let? _ := match login connection email password with
            | Some e => Raise e
            | None => Ret tt
            end in
  let? semester_ := environ_item environ "GRADESCOPE_SEMESTER" in
  let? courses := get_courses connection in
  let courses :=
    List.filter (fun item => String.eqb (semester (snd item)) semester_
                             && String.eqb (course_year (snd item)) this_year)
                courses in
  sync_courses connection courses.

(** ** Vocabulary of the properties *)

(** The state in which the loop over [pre] leaves off: when every turn on
    [pre] returned, the state in which the loop handles the todo that
    comes after [pre]. *)
Definition state_after (env : Env) (calendar : Calendar)
    (server_todos : list ServerObj) (pre : list Component) : State :=
  snd (sync_loop env calendar server_todos pre).

(** An entry after [server_vtodo['STATUS'] = 'NEEDS-ACTION']. *)
Definition with_needs_action (e : ServerEntry) : ServerEntry :=
  {| server_obj := server_obj e;
     before := before e;
     server_vtodo := comp_set (server_vtodo e) "STATUS" "NEEDS-ACTION";
     after := after e |}.

(** The call lines 213-223 make to create a todo, if the calendar has one
    of the three methods. *)
Definition create_call (calendar : Calendar) (data : ical) : option Call :=
  if cal_add_todo calendar then Some (calendar_add_todo data)
  else if cal_add_event calendar then Some (calendar_add_event data)
  else if cal_save calendar then Some (calendar_save data)
  else None.

(** The exception with which the calls of lines 253-266 reach the handler
    of line 279, after calls [tr]: that of [save], tried a second time
    after a [TypeError], or else that of [put], or else that of [_put]. *)
Definition save_failure (env : Env) (tr : list Call) (o : ServerObj) (data : ical)
  : option exn :=
  if obj_save o then
    match remote env tr (server_obj_save o data) with
    | None => None
    | Some e =>
        if is_TypeError e
        then remote env (tr ++ [server_obj_save o data])%list (server_obj_save o data)
        else Some e
    end
  else if obj_put o then remote env tr (server_obj_put o data)
  else if obj__put o then remote env tr (server_obj__put o data)
  else None.

(** The exception with which lines 248-278 reach the handler of line 279:
    that of the serialization of line 250, or else that of the saving
    calls. *)
Definition update_failure (env : Env) (tr : list Call) (o : ServerObj) (data : ical)
  : option exn :=
  match codec env data with
  | Some e => Some e
  | None => save_failure env tr o data
  end.

(** Whether lines 253-276 hand the calendar over, after calls [tr], when
    nothing reaches the handler of line 279: to a method of the server
    todo, or else to the raw PUT of line 273 when there is a URL and a
    client and the PUT returns. *)
Definition handed_over (env : Env) (calendar : Calendar) (tr : list Call)
    (o : ServerObj) (data : ical) : bool :=
  if obj_save o then true
  else if obj_put o then true
  else if obj__put o then true
  else
    match obj_url o with
    | Some url =>
        if truthy (obj_url o) && cal_client calendar then
          match remote env tr (client_put url data) with
          | None => true
          | Some _ => false
          end
        else false
    | None => false
    end.

(** Every local todo of the list can be serialized: [to_ical()] returns
    on each. *)
Definition serializable (env : Env) (todos : list Component) : Prop :=
  Forall (fun local => codec env (todo_to_ical local) = None) todos.

(** Whether one of the calls [cs], made in this order after the calls
    [tr], raised. *)
Fixpoint some_call_raised (env : Env) (tr cs : list Call) : bool :=
  match cs with
  | [] => false
  | c :: rest =>
      match remote env tr c with
      | Some _ => true
      | None => some_call_raised env (tr ++ [c])%list rest
      end
  end.

(** The content a call carries. *)
Definition call_data (c : Call) : ical :=
  match c with
  | calendar_add_todo d | calendar_add_event d | calendar_save d => d
  | server_obj_save _ d | server_obj_put _ d | server_obj__put _ d => d
  | client_put _ d => d
  end.

(** A call on the calendar itself, not on a server todo. *)
Definition on_calendar (c : Call) : bool :=
  match c with
  | calendar_add_todo _ | calendar_add_event _ | calendar_save _ => true
  | _ => false
  end.

(** A server todo enters the uid map when it parses to a calendar with a
    VTODO whose UID is neither absent nor empty (lines 188-191). *)
Definition usable (s : ServerObj) : bool :=
  match _extract_vtodo_and_calendar s with
  | Ret (_, server_vtodo, _) => truthy (comp_get server_vtodo "UID")
  | Raise _ => false
  end.

(** The UID and the entry under which a server todo enters the uid map,
    if it does (lines 188-191). *)
Definition entry_for (s : ServerObj) : option (string * ServerEntry) :=
  match _extract_vtodo_and_calendar s with
  | Ret (b, v, a) =>
      match comp_get v "UID" with
      | Some u =>
          if truthy (Some u)
          then Some (u, {| server_obj := s; before := b;
                           server_vtodo := v; after := a |})
          else None
      | None => None
      end
  | Raise _ => None
  end.

Definition entry_key (s : ServerObj) : option string :=
  match entry_for s with
  | Some (u, _) => Some u
  | None => None
  end.

(** [v'] is [v] up to its STATUS, which is as in [v] or NEEDS-ACTION. *)
Definition status_only (v v' : Component) : Prop :=
  name v' = name v
  /\ DUE v' = DUE v
  /\ CATEGORIES v' = CATEGORIES v
  /\ (forall k : string, k <> "STATUS" -> props v' !! k = props v !! k)
  /\ (props v' !! "STATUS" = props v !! "STATUS"
      \/ props v' !! "STATUS" = Some "NEEDS-ACTION").

Definition entry_frame (e e' : ServerEntry) : Prop :=
  server_obj e' = server_obj e
  /\ before e' = before e
  /\ after e' = after e
  /\ status_only (server_vtodo e) (server_vtodo e').

(** The uid maps [m] and [m'] have the same keys, and under each key
    entries that differ in the STATUS of their VTODO at most. *)
Definition map_frame (m m' : gmap string ServerEntry) : Prop :=
  forall k : string,
    match m !! k, m' !! k with
    | Some e, Some e' => entry_frame e e'
    | None, None => True
    | _, _ => False
    end.

(** The three actions of lines 246-281 and the three of lines 209-230. *)
Definition mark_action (a : Action) : Prop :=
  action a = "set_needs_action"
  \/ action a = "set_needs_action_attempted"
  \/ action a = "update_failed".

Definition create_action (a : Action) : Prop :=
  action a = "created"
  \/ action a = "create_attempted"
  \/ action a = "create_failed".

(** ** Sample data *)

(** A remote side on which every call returns, one on which every call
    raises, and one on which only the raw PUT of line 273 raises; every
    content can be serialized. *)
Definition quiet : Env :=
  {| remote := fun _ _ => None; codec := fun _ => None |}.

Definition failing : Env :=
  {| remote := fun _ _ => Some (Exn false "503 Service Unavailable");
     codec := fun _ => None |}.

Definition put_refused : Env :=
  {| remote := fun _ c =>
       match c with
       | client_put _ _ => Some (Exn false "connection refused")
       | _ => None
       end;
     codec := fun _ => None |}.

(** A remote side whose [save] raises [TypeError] on its first call only. *)
Definition save_picky : Env :=
  {| remote := fun tr c =>
       match tr, c with
       | [], server_obj_save _ _ => Some (Exn true "expected bytes")
       | _, _ => None
       end;
     codec := fun _ => None |}.

Definition full_calendar : Calendar :=
  {| cal_add_todo := true; cal_add_event := true; cal_save := true;
     cal_client := true |}.

(** A VTODO with the given text properties and due value. *)
Definition vtodo (texts : list (string * string)) (due : pyval) : Component :=
  {| name := "VTODO"; props := list_to_map texts; DUE := due; CATEGORIES := [] |}.

Definition vcalendar : Component :=
  {| name := "VCALENDAR"; props := ∅; DUE := PNone; CATEGORIES := [] |}.

(** A server todo that parses to a calendar with the one VTODO [v], and
    that has a [save] method or nothing but a URL. *)
Definition saving (v : Component) : ServerObj :=
  {| parsed := Ret [vcalendar; v]; obj_save := true; obj_put := false;
     obj__put := false; obj_url := Some "https://dav.example/cal/a.ics" |}.

Definition url_only (v : Component) : ServerObj :=
  {| parsed := Ret [vcalendar; v]; obj_save := false; obj_put := false;
     obj__put := false; obj_url := Some "https://dav.example/cal/a.ics" |}.

Definition entry_of (s : ServerObj) (v : Component) : ServerEntry :=
  {| server_obj := s; before := [vcalendar]; server_vtodo := v; after := [] |}.

Definition march_1 : date := {| year := 2024; month := 3; day := 1 |}.

Definition march_1_midnight : datetime := datetime_ymd 2024 3 1.

(** The todos of the scenarios: HW1 as the server has it, cancelled by
    hand, or still open; HW1 as Gradescope gives it; HW1 with a new
    title; HW1 with its date moved by a week; HW2, which the server does
    not have; and todos without a usable uid. *)
Definition remote_hw1 : Component :=
  vtodo [("UID", "a"); ("SUMMARY", "HW1"); ("STATUS", "CANCELLED")]
        (PWrapper (PDateTime march_1_midnight)).

Definition remote_hw1_open : Component :=
  vtodo [("UID", "a"); ("SUMMARY", "HW1"); ("STATUS", "NEEDS-ACTION")]
        (PWrapper (PDate march_1)).

Definition local_hw1 : Component :=
  vtodo [("UID", "a"); ("SUMMARY", "HW1"); ("STATUS", "NEEDS-ACTION")]
        (PWrapper (PDate march_1)).

Definition local_hw1_revised : Component :=
  vtodo [("UID", "a"); ("SUMMARY", "HW1 (revised)"); ("STATUS", "NEEDS-ACTION")]
        (PWrapper (PDate march_1)).

Definition local_hw1_moved : Component :=
  vtodo [("UID", "a"); ("SUMMARY", "HW1"); ("STATUS", "NEEDS-ACTION")]
        (PWrapper (PDate {| year := 2024; month := 3; day := 8 |})).

Definition local_hw2 : Component :=
  vtodo [("UID", "b"); ("SUMMARY", "HW2"); ("STATUS", "NEEDS-ACTION")] PNone.

(** A codec that cannot encode one summary, on a remote side on which
    every call returns; HW3 with that summary, and without it. *)
Definition encodable (c : Component) : bool :=
  match comp_get c "SUMMARY" with
  | Some s => negb (String.eqb s "HW3 (lone surrogate)")
  | None => true
  end.

Definition strict_codec : Env :=
  {| remote := fun _ _ => None;
     codec := fun content =>
       let comps :=
         match content with
         | todo_to_ical c => [c]
         | calendar_to_ical cal => cal
         end in
       if forallb encodable comps then None
       else Some (Exn false "'utf-8' codec can't encode character") |}.

Definition local_hw3_odd : Component :=
  vtodo [("UID", "c"); ("SUMMARY", "HW3 (lone surrogate)")] PNone.

Definition remote_hw3_odd : Component :=
  vtodo [("UID", "c"); ("SUMMARY", "HW3 (lone surrogate)"); ("STATUS", "COMPLETED")]
        PNone.

Definition local_hw3 : Component :=
  vtodo [("UID", "c"); ("SUMMARY", "HW3"); ("STATUS", "NEEDS-ACTION")] PNone.

Definition local_no_uid : Component := vtodo [("SUMMARY", "X")] PNone.

Definition local_empty_uid : Component := vtodo [("UID", ""); ("SUMMARY", "X")] PNone.

(** ** More sample data *)

(** A server object that holds an event, not a todo. *)
Definition vevent : Component :=
  {| name := "VEVENT"; props := {["UID" := "e1"]}; DUE := PNone; CATEGORIES := [] |}.

Definition event_only : ServerObj :=
  {| parsed := Ret [vcalendar; vevent]; obj_save := true; obj_put := false;
     obj__put := false; obj_url := None |}.

(** A parser that knows one text, and objects of the caldav client: one
    with a parsed calendar and raw data beside it, one with raw data
    only, under [_data] and [data], and one with nothing to read. *)
Definition toy_from_ical (raw : string) : res (list Component) :=
  if String.eqb raw "BEGIN:VCALENDAR..." then Ret [vcalendar; remote_hw1]
  else Raise (Exn false "ValueError").

Definition bare_obj : TodoObj :=
  {| o_vobject_instance := None; o_instance := None;
     o_data := raw_missing; o__data := raw_missing; o_raw := raw_missing;
     o_ical := raw_missing; o__get_data := raw_missing;
     o_save := true; o_put := false; o__put := false; o_url := None |}.

Definition with_instance_obj : TodoObj :=
  {| o_vobject_instance := None;
     o_instance := Some (a_calendar [vcalendar; remote_hw1_open]);
     o_data := raw_value (Some "BEGIN:VCALENDAR...");
     o__data := raw_missing; o_raw := raw_missing;
     o_ical := raw_missing; o__get_data := raw_missing;
     o_save := true; o_put := false; o__put := false; o_url := None |}.

Definition with_instance_only_obj : TodoObj :=
  {| o_vobject_instance := None;
     o_instance := Some (a_calendar [vcalendar; remote_hw1_open]);
     o_data := raw_missing;
     o__data := raw_missing; o_raw := raw_missing;
     o_ical := raw_missing; o__get_data := raw_missing;
     o_save := false; o_put := false; o__put := false; o_url := None |}.

Definition with_data_obj : TodoObj :=
  {| o_vobject_instance := None; o_instance := None;
     o_data := raw_value (Some "");
     o__data := raw_callable (Ret (Some "BEGIN:VCALENDAR..."));
     o_raw := raw_value (Some "garbage");
     o_ical := raw_missing; o__get_data := raw_missing;
     o_save := true; o_put := false; o__put := false; o_url := None |}.

(** Calendars of an account: one whose name is read with
    [get_properties], one that has a [name] only, and one that cannot
    list its todos; the settings of a run, whole and without a password;
    and an account with the three calendars. *)
Definition work_calendar : CalendarObj :=
  {| c_get_properties := gp_method (Ret (prop_dict [Some "Work"]));
     c_name := None;
     c_todos := Some (Ret []);
     c_events := None;
     c_methods := full_calendar |}.

Definition school_calendar : CalendarObj :=
  {| c_get_properties := gp_missing;
     c_name := Some "School";
     c_todos := Some (Ret [saving remote_hw1]);
     c_events := None;
     c_methods := full_calendar |}.

Definition unlistable_calendar : CalendarObj :=
  {| c_get_properties := gp_method (Raise (Exn false "403 Forbidden"));
     c_name := Some "Shared";
     c_todos := Some (Raise (Exn false "403 Forbidden"));
     c_events := Some (Raise (Exn false "403 Forbidden"));
     c_methods := full_calendar |}.

Definition settings : gmap string string :=
  {[ "CALDAV_URL" := "https://dav.example/";
     "CALDAV_USERNAME" := "ada";
     "CALDAV_PASSWORD" := "secret";
     "CALDAV_CALENDAR_NAME" := "School" ]}.

Definition settings_without_password : gmap string string :=
  {[ "CALDAV_URL" := "https://dav.example/";
     "CALDAV_USERNAME" := "ada" ]}.

Definition account (url username password : string) : res (list CalendarObj) :=
  Ret [work_calendar; school_calendar; unlistable_calendar].

(** A Gradescope account with two courses of this term and one of an
    earlier one, whose assignments cannot be read; and the settings of
    [sync]. *)
Definition hw1 : Assignment :=
  {| assignment_id := "101"; assignment_name := "HW1";
     due_date := Some march_1_midnight; submissions_status := "No Submission" |}.

Definition hw1_submitted : Assignment :=
  {| assignment_id := "101"; assignment_name := "HW1";
     due_date := Some march_1_midnight; submissions_status := "Submitted" |}.

Definition quiz : Assignment :=
  {| assignment_id := "202"; assignment_name := "Quiz";
     due_date := None; submissions_status := "Submitted" |}.

Definition algebra : CourseEntry :=
  {| course := {| course_name := "Algebra" |}; semester := "Spring";
     course_year := "2024" |}.

Definition logic : CourseEntry :=
  {| course := {| course_name := "Logic" |}; semester := "Spring";
     course_year := "2024" |}.

Definition old_course : CourseEntry :=
  {| course := {| course_name := "Analysis" |}; semester := "Fall";
     course_year := "2023" |}.

Definition gradescope : GSConnection :=
  {| login := fun _ _ => None;
     get_courses := Ret [("7", algebra); ("5", old_course); ("8", logic)];
     get_assignments := fun course_id =>
       if String.eqb course_id "7" then Ret [hw1]
       else if String.eqb course_id "8" then Ret [quiz]
       else Raise (Exn false "course archived") |}.

Definition gradescope_down : GSConnection :=
  {| login := fun _ _ => None;
     get_courses := Ret [("7", algebra); ("5", old_course); ("8", logic)];
     get_assignments := fun course_id =>
       if String.eqb course_id "7" then Ret [hw1]
       else Raise (Exn false "course archived") |}.

Definition gradescope_settings : gmap string string :=
  {[ "GRADESCOPE_EMAIL" := "ada@example.edu";
     "GRADESCOPE_PASSWORD" := "secret";
     "GRADESCOPE_SEMESTER" := "Spring" ]}.

(** HW1 as a server that keeps its times in UTC gives it back. *)
Definition utc : zone :=
  {| zone_id := 1; offset := Some 0%Z; offset_other_fold := Some 0%Z |}.

(** Zones: [utc] and [gmt], two objects with the offset 0; [est], five
    hours behind; and [eastern] in the hour that the clocks repeat in
    November, four or five hours behind by the value of [fold]. *)
Definition gmt : zone :=
  {| zone_id := 2; offset := Some 0%Z; offset_other_fold := Some 0%Z |}.

Definition est : zone :=
  {| zone_id := 3; offset := Some (-18000000000)%Z;
     offset_other_fold := Some (-18000000000)%Z |}.

Definition eastern_first : zone :=
  {| zone_id := 4; offset := Some (-14400000000)%Z;
     offset_other_fold := Some (-18000000000)%Z |}.

Definition eastern_second : zone :=
  {| zone_id := 4; offset := Some (-18000000000)%Z;
     offset_other_fold := Some (-14400000000)%Z |}.

Definition at_zone (t : datetime) (z : zone) : datetime :=
  {| dt_year := dt_year t; dt_month := dt_month t; dt_day := dt_day t;
     hour := hour t; minute := minute t; second := second t;
     microsecond := microsecond t; tzinfo := Some z |}.

Definition feb_29_19h : datetime :=
  {| dt_year := 2024; dt_month := 2; dt_day := 29;
     hour := 19; minute := 0; second := 0; microsecond := 0; tzinfo := None |}.

Definition nov_3_1h30 : datetime :=
  {| dt_year := 2024; dt_month := 11; dt_day := 3;
     hour := 1; minute := 30; second := 0; microsecond := 0; tzinfo := None |}.

Definition nov_3_5h30 : datetime :=
  {| dt_year := 2024; dt_month := 11; dt_day := 3;
     hour := 5; minute := 30; second := 0; microsecond := 0; tzinfo := None |}.

Definition march_1_midnight_utc : datetime :=
  {| dt_year := 2024; dt_month := 3; dt_day := 1;
     hour := 0; minute := 0; second := 0; microsecond := 0;
     tzinfo := Some utc |}.

Definition remote_hw1_utc : Component :=
  vtodo [("UID", "a"); ("SUMMARY", "HW1"); ("STATUS", "COMPLETED")]
        (PWrapper (PDateTime march_1_midnight_utc)).

(** * Properties *)

(** ** The normalizer *)

Lemma normalize_dt_returns (val : pyval) : _normalize_dt val = Ret (normalized val).
Proof.
  unfold normalized, _normalize_dt.
  destruct val as [ | t | d | inner | e | ]; simpl; try reflexivity.
  destruct inner; reflexivity.
Qed.

(** C6: the normalizer maps [None] to [None], a date to the naive
    date-time at midnight of that date, a date-time to itself, a wrapper
    to the same on its inner value, unwrapped one level only, and every
    other input to [None]. *)
Theorem normalize_dt_cases :
  _normalize_dt PNone = Ret None
  /\ (forall d : date,
        _normalize_dt (PDate d)
        = Ret (Some {| dt_year := year d; dt_month := month d; dt_day := day d;
                       hour := 0; minute := 0; second := 0; microsecond := 0;
                       tzinfo := None |}))
  /\ (forall t : datetime, _normalize_dt (PDateTime t) = Ret (Some t))
  /\ (forall d : date,
        _normalize_dt (PWrapper (PDate d))
        = Ret (Some {| dt_year := year d; dt_month := month d; dt_day := day d;
                       hour := 0; minute := 0; second := 0; microsecond := 0;
                       tzinfo := None |}))
  /\ (forall t : datetime, _normalize_dt (PWrapper (PDateTime t)) = Ret (Some t))
  /\ (forall inner : pyval, _normalize_dt (PWrapper (PWrapper inner)) = Ret None)
  /\ _normalize_dt (PWrapper PNone) = Ret None
  /\ _normalize_dt (PWrapper PPlain) = Ret None
  /\ (forall e : exn, _normalize_dt (PWrapper (PFaulty e)) = Ret None)
  /\ _normalize_dt PPlain = Ret None
  /\ (forall e : exn, _normalize_dt (PFaulty e) = Ret None).
Proof. repeat split. Qed.

(** C7: the normalizer returns on every input, with a date-time or
    [None], and never raises: an exception of the [try] block ends in
    [None]; it reads nothing but its argument; and [None == None] holds
    in the comparison of its results. *)
Theorem normalize_dt_total :
  (forall val : pyval,
      exists r : option datetime, _normalize_dt val = Ret r)
  /\ (forall val : pyval, forall e : exn,
        normalize_try val = Raise e -> _normalize_dt val = Ret None)
  /\ (forall e : exn, normalize_try (PFaulty e) = Raise e)
  /\ opt_datetime_eq None None = true.
Proof.
  split; [| split; [| split]].
  - intros val. exists (normalized val). apply normalize_dt_returns.
  - intros val e H. unfold _normalize_dt.
    destruct val; simpl in *; try discriminate; try reflexivity.
    destruct val; discriminate.
  - reflexivity.
  - reflexivity.
Qed.

(** The keys the program uses, in the form the components store them. *)
Ltac norm_keys :=
  change (upper "UID") with "UID" in *;
  change (upper "SUMMARY") with "SUMMARY" in *;
  change (upper "STATUS") with "STATUS" in *;
  change (upper "DESCRIPTION") with "DESCRIPTION" in *;
  change (upper "summary") with "SUMMARY" in *;
  change (upper "description") with "DESCRIPTION" in *;
  change (upper "status") with "STATUS" in *.

(** ** The assignment mapping *)

(** C9: the todo made for an assignment has the uid "gradescope-"
    followed by the assignment id, the assignment name as its summary,
    the due date of the assignment as its due value, the status COMPLETED
    exactly when the submission status is "Submitted" and NEEDS-ACTION
    otherwise, the URL of the assignment as its description, and the
    categories "Gradescope" and the course name. *)
Theorem make_todo_fields (course_id : string) (course : Course) (a : Assignment) :
  comp_get (make_todo course_id course a) "UID"
  = Some ("gradescope-" ++ assignment_id a)
  /\ comp_get (make_todo course_id course a) "SUMMARY" = Some (assignment_name a)
  /\ DUE (make_todo course_id course a)
     = match due_date a with
       | Some t => PWrapper (PDateTime t)
       | None => PNone
       end
  /\ _normalize_dt (DUE (make_todo course_id course a)) = Ret (due_date a)
  /\ comp_get (make_todo course_id course a) "STATUS"
     = Some (if String.eqb (submissions_status a) "Submitted"
             then "COMPLETED" else "NEEDS-ACTION")
  /\ (comp_get (make_todo course_id course a) "STATUS" = Some "COMPLETED"
      <-> submissions_status a = "Submitted")
  /\ comp_get (make_todo course_id course a) "DESCRIPTION"
     = Some ("https://www.gradescope.com/courses/" ++ course_id
             ++ "/assignments/" ++ assignment_id a)
  /\ CATEGORIES (make_todo course_id course a) = ["Gradescope"; course_name course]
  /\ name (make_todo course_id course a) = "VTODO".
Proof.
  unfold make_todo, comp_get, comp_set, set_categories, set_end, Todo.
  norm_keys. cbn [props DUE CATEGORIES name].
  repeat split.
  - destruct (due_date a); reflexivity.
  - rewrite lookup_insert_eq. intros H. injection H as H.
    destruct (String.eqb_spec (submissions_status a) "Submitted"); [assumption | discriminate].
  - intros ->. rewrite lookup_insert_eq. reflexivity.
Qed.

(** ** The frame of the uid map *)

Open Scope list_scope.

Lemma status_only_refl (v : Component) : status_only v v.
Proof. unfold status_only. repeat split; auto. Qed.

Lemma status_only_trans (v1 v2 v3 : Component) :
  status_only v1 v2 -> status_only v2 v3 -> status_only v1 v3.
Proof.
  intros (Hn & Hd & Hc & Hk & Hs) (Hn' & Hd' & Hc' & Hk' & Hs').
  repeat split; try congruence.
  - intros k Hne. rewrite Hk' by assumption. apply Hk. assumption.
  - destruct Hs' as [Hs' | Hs']; [rewrite Hs'; exact Hs | right; exact Hs'].
Qed.

Lemma status_only_set (v : Component) :
  status_only v (comp_set v "STATUS" "NEEDS-ACTION").
Proof.
  unfold status_only, comp_set. norm_keys. cbn [name props DUE CATEGORIES].
  repeat split.
  - intros k Hne. apply lookup_insert_ne. congruence.
  - right. apply lookup_insert_eq.
Qed.

Lemma entry_frame_refl (e : ServerEntry) : entry_frame e e.
Proof.
  unfold entry_frame.
  split; [| split; [| split]]; auto using status_only_refl.
Qed.

Lemma entry_frame_trans (e1 e2 e3 : ServerEntry) :
  entry_frame e1 e2 -> entry_frame e2 e3 -> entry_frame e1 e3.
Proof.
  intros (Ho & Hb & Ha & Hv) (Ho' & Hb' & Ha' & Hv').
  split; [| split; [| split]]; try congruence.
  eapply status_only_trans; eassumption.
Qed.

Lemma entry_frame_mark (e : ServerEntry) : entry_frame e (with_needs_action e).
Proof.
  unfold entry_frame, with_needs_action. cbn [server_obj before after server_vtodo].
  split; [| split; [| split]]; auto using status_only_set.
Qed.

Lemma map_frame_refl (m : gmap string ServerEntry) : map_frame m m.
Proof. intros k. destruct (m !! k); auto using entry_frame_refl. Qed.

Lemma map_frame_trans (m1 m2 m3 : gmap string ServerEntry) :
  map_frame m1 m2 -> map_frame m2 m3 -> map_frame m1 m3.
Proof.
  intros H12 H23 k. specialize (H12 k). specialize (H23 k).
  destruct (m1 !! k), (m2 !! k), (m3 !! k); try contradiction; auto.
  eapply entry_frame_trans; eassumption.
Qed.

Lemma map_frame_mark (m : gmap string ServerEntry) (u : string) (e : ServerEntry) :
  m !! u = Some e -> map_frame m (<[u := with_needs_action e]> m).
Proof.
  intros He k. destruct (decide (u = k)) as [<- | Hne].
  - rewrite He, lookup_insert_eq. apply entry_frame_mark.
  - rewrite lookup_insert_ne by assumption.
    destruct (m !! k); auto using entry_frame_refl.
Qed.

(** ** One turn of the loop, and the loop *)

Ltac unfold_sync :=
  unfold sync_one, set_needs_action, create_on_server, to_ical, bind, lift,
    lookup_entry, try_except_M, try_except_TypeError, invoke, append, store, ret;
  rewrite ?normalize_dt_returns; cbn [server_map actions calls].

Lemma map_frame_empty (m : gmap string ServerEntry) :
  map_frame ∅ m -> forall k : string, m !! k = None.
Proof.
  intros H k. specialize (H k). rewrite lookup_empty in H.
  destruct (m !! k); [contradiction | reflexivity].
Qed.

(** [for x in pre + post]: the loop over [post] starts where the loop
    over [pre] returns, and does not start when it raises. *)
Lemma for_each_app {A} (body : A -> M unit) (pre post : list A) (st : State) :
  for_each body (pre ++ post) st
  = match for_each body pre st with
    | (Ret _, st1) => for_each body post st1
    | (Raise x, st1) => (Raise x, st1)
    end.
Proof.
  revert st. induction pre as [| x rest IH]; intros st; [reflexivity |].
  cbn [app for_each]. unfold bind.
  destruct (body x st) as [[[] | e] st1]; [apply IH | reflexivity].
Qed.

Section Loop.

Context (env : Env) (calendar : Calendar).

(** A turn returns, or it raises the exception of the serialization of
    line 210 and leaves the state as it was.  A turn that returns adds
    one action, which bears the UID of the local todo, adds two calls at
    most, and keeps the uid map up to the STATUS of the entry under that
    UID. *)
Lemma sync_one_cases (local : Component) (st : State) :
  (exists (st' : State) (a : Action) (cs : list Call),
      sync_one env calendar local st = (Ret tt, st')
      /\ actions st' = actions st ++ [a]
      /\ uid a = comp_get local "UID"
      /\ (action a = "skipped" <-> comp_get local "UID" = None)
      /\ calls st' = calls st ++ cs
      /\ length cs <= 2
      /\ map_frame (server_map st) (server_map st')
      /\ (forall k : string,
            comp_get local "UID" <> Some k ->
            server_map st' !! k = server_map st !! k))
  \/ (exists (x : exn) (u : string),
        sync_one env calendar local st = (Raise x, st)
        /\ comp_get local "UID" = Some u
        /\ server_map st !! u = None
        /\ codec env (todo_to_ical local) = Some x).
Proof.
  unfold_sync.
  destruct (comp_get local "UID") as [u |] eqn:Hu.
  - destruct (server_map st !! u) as [e |] eqn:He; unfold_sync.
    + left.
      repeat (case_match; simplify_eq; cbn [server_map actions calls] in * );
        rewrite <- ?app_assoc; cbn [app];
        (eexists; eexists;
         first [ eexists; split; [reflexivity |]
               | exists []; split; [rewrite app_nil_r; reflexivity |] ]);
        cbn [server_map actions calls uid action];
        (split; [reflexivity |]); (split; [reflexivity |]);
        (split; [split; discriminate |]);
        (split; [first [reflexivity | symmetry; apply app_nil_r] |]);
        (split; [cbn; lia |]);
        (split; [first [apply map_frame_refl | apply (map_frame_mark _ _ _ He)] |]);
        intros k Hk;
        first [ reflexivity | apply lookup_insert_ne; congruence ].
    + destruct (codec env (todo_to_ical local)) as [x |] eqn:Hc.
      * right. exists x, u. destruct st. auto.
      * left.
        repeat (case_match; simplify_eq; cbn [server_map actions calls] in * );
          (eexists; eexists;
           first [ eexists; split; [reflexivity |]
                 | exists []; split; [rewrite app_nil_r; reflexivity |] ]);
          cbn [server_map actions calls uid action];
          (split; [reflexivity |]); (split; [reflexivity |]);
          (split; [split; discriminate |]);
          (split; [first [reflexivity | symmetry; apply app_nil_r] |]);
          (split; [cbn; lia |]);
          (split; [apply map_frame_refl |]);
          intros k Hk; reflexivity.
  - left.
    exists {| server_map := server_map st;
              actions := actions st
                         ++ [{| uid := None; action := "skipped";
                                detail := Some ("reason", "local todo missing UID") |}];
              calls := calls st |}.
    eexists. exists []. cbn [server_map actions calls uid action].
    rewrite app_nil_r. repeat split; auto using map_frame_refl.
Qed.

(** A turn on a todo that can be serialized returns. *)
Lemma sync_one_returns (local : Component) (st : State) :
  codec env (todo_to_ical local) = None ->
  exists (st' : State) (a : Action) (cs : list Call),
    sync_one env calendar local st = (Ret tt, st')
    /\ actions st' = actions st ++ [a]
    /\ uid a = comp_get local "UID"
    /\ (action a = "skipped" <-> comp_get local "UID" = None)
    /\ calls st' = calls st ++ cs
    /\ length cs <= 2
    /\ map_frame (server_map st) (server_map st')
    /\ (forall k : string,
          comp_get local "UID" <> Some k ->
          server_map st' !! k = server_map st !! k).
Proof.
  intros Hc. destruct (sync_one_cases local st) as [H | (x & u & _ & _ & _ & Hx)];
    [exact H | congruence].
Qed.

(** However the loop ends, it has added one action at most and two calls
    at most for each todo, and has kept the uid map up to the STATUS of
    the entries under the UIDs of the todos. *)
Lemma for_each_frame (todos : list Component) (st : State) :
  (exists acts : list Action,
      actions (snd (for_each (sync_one env calendar) todos st)) = actions st ++ acts
      /\ length acts <= length todos)
  /\ (exists cs : list Call,
        calls (snd (for_each (sync_one env calendar) todos st)) = calls st ++ cs
        /\ length cs <= 2 * length todos)
  /\ map_frame (server_map st)
               (server_map (snd (for_each (sync_one env calendar) todos st)))
  /\ (forall k : string,
        (forall local, In local todos -> comp_get local "UID" <> Some k) ->
        server_map (snd (for_each (sync_one env calendar) todos st)) !! k
        = server_map st !! k).
Proof.
  revert st. induction todos as [| local rest IH]; intros st.
  - cbn. split; [exists []; rewrite app_nil_r; auto |].
    split; [exists []; rewrite app_nil_r; auto |].
    split; [apply map_frame_refl | reflexivity].
  - cbn [for_each]. unfold bind.
    destruct (sync_one_cases local st)
      as [(st1 & a & cs1 & Hrun & Hacts & _ & _ & Hcalls & Hlen & Hf & Hmap)
         | (x & u & Hrun & _)]; rewrite Hrun.
    + destruct (IH st1) as ((acts & Hacts2 & Hlen2) & (cs2 & Hcalls2 & Hlenc) & Hf2 & Hmap2).
      split; [exists (a :: acts); rewrite Hacts2, Hacts, <- app_assoc; cbn; split; [reflexivity | lia] |].
      split; [exists (cs1 ++ cs2); rewrite Hcalls2, Hcalls, <- app_assoc, length_app;
              cbn [length]; split; [reflexivity | lia] |].
      split; [eapply map_frame_trans; eassumption |].
      intros k Hk. rewrite Hmap2, Hmap.
      * reflexivity.
      * apply Hk. left. reflexivity.
      * intros l Hl. apply Hk. right. exact Hl.
    + cbn [snd].
      split; [exists []; rewrite app_nil_r; split; [reflexivity | cbn; lia] |].
      split; [exists []; rewrite app_nil_r; split; [reflexivity | cbn; lia] |].
      split; [apply map_frame_refl | reflexivity].
Qed.

(** When the loop returns, it has added one action for each todo, in the
    order of the todos, each with the UID of its todo, and [skipped] for
    the todos without a UID and for no other. *)
Lemma for_each_ret (todos : list Component) (st st' : State) :
  for_each (sync_one env calendar) todos st = (Ret tt, st') ->
  exists acts : list Action,
    actions st' = actions st ++ acts
    /\ Forall2 (fun local a =>
                  uid a = comp_get local "UID"
                  /\ (action a = "skipped" <-> comp_get local "UID" = None))
               todos acts.
Proof.
  revert st. induction todos as [| local rest IH]; intros st Hrun.
  - cbn in Hrun. injection Hrun as <-. exists []. rewrite app_nil_r.
    split; [reflexivity | constructor].
  - cbn [for_each] in Hrun. unfold bind in Hrun.
    destruct (sync_one_cases local st)
      as [(st1 & a & cs1 & Hone & Hacts & Huid & Hskip & _) | (x & u & Hone & _)];
      rewrite Hone in Hrun; [| discriminate].
    destruct (IH st1 Hrun) as (acts & Hacts2 & Hall).
    exists (a :: acts).
    split; [rewrite Hacts2, Hacts, <- app_assoc; reflexivity | constructor; auto].
Qed.

(** The loop over todos that can be serialized returns. *)
Lemma for_each_returns (todos : list Component) (st : State) :
  serializable env todos ->
  exists st' : State, for_each (sync_one env calendar) todos st = (Ret tt, st').
Proof.
  intros Hser. revert st.
  induction Hser as [| local rest Hc _ IH]; intros st; [exists st; reflexivity |].
  destruct (sync_one_returns local st Hc) as (st1 & a & cs & Hrun & _).
  destruct (IH st1) as (st2 & Hrun2).
  exists st2. cbn [for_each]. unfold bind. rewrite Hrun. exact Hrun2.
Qed.

Lemma for_each_spec (todos : list Component) (st : State) :
  serializable env todos ->
  exists (st' : State) (acts : list Action),
    for_each (sync_one env calendar) todos st = (Ret tt, st')
    /\ actions st' = actions st ++ acts
    /\ length acts = length todos
    /\ Forall2 (fun local a =>
                  uid a = comp_get local "UID"
                  /\ (action a = "skipped" <-> comp_get local "UID" = None))
               todos acts.
Proof.
  intros Hser. destruct (for_each_returns todos st Hser) as (st' & Hrun).
  destruct (for_each_ret todos st st' Hrun) as (acts & Hacts & Hall).
  exists st', acts. repeat (split; [assumption |]).
  split; [| exact Hall].
  symmetry. eapply Forall2_length. exact Hall.
Qed.

Lemma sync_loop_returns (server_todos : list ServerObj) (pre : list Component) :
  serializable env pre ->
  sync_loop env calendar server_todos pre
  = (Ret tt, state_after env calendar server_todos pre)
  /\ length (actions (state_after env calendar server_todos pre)) = length pre.
Proof.
  intros Hser. unfold state_after, sync_loop.
  destruct (for_each_spec pre
              {| server_map := build_server_map server_todos;
                 actions := []; calls := [] |} Hser)
    as (st' & acts & Hrun & Hacts & Hlen & _).
  rewrite Hrun. cbn [snd]. split; [reflexivity |].
  rewrite Hacts. cbn. exact Hlen.
Qed.

(** The action a turn adds is, in the list returned, at the position of
    the todo in the list given. *)
Lemma sync_todos_at (server_todos : list ServerObj) (pre post : list Component)
    (local : Component) (st' : State) (a : Action) :
  serializable env pre ->
  serializable env post ->
  sync_one env calendar local (state_after env calendar server_todos pre)
  = (Ret tt, st') ->
  actions st' = actions (state_after env calendar server_todos pre) ++ [a] ->
  exists acts : list Action,
    sync_todos env calendar server_todos (pre ++ local :: post) = Ret acts
    /\ acts !! length pre = Some a
    /\ length acts = length (pre ++ local :: post).
Proof.
  intros Hpre Hpost Hrun Ha.
  destruct (sync_loop_returns server_todos pre Hpre) as (Hloop & Hlen).
  unfold sync_todos, sync_loop. rewrite for_each_app.
  fold (sync_loop env calendar server_todos pre). rewrite Hloop.
  cbn [for_each]. unfold bind. rewrite Hrun.
  destruct (for_each_spec post st' Hpost) as (st2 & acts & Hrun2 & Hacts & Hlen2 & _).
  rewrite Hrun2. eexists. split; [reflexivity |].
  rewrite Hacts, Ha. split.
  - rewrite <- app_assoc. rewrite lookup_app_r by lia.
    rewrite Hlen, Nat.sub_diag. reflexivity.
  - rewrite !length_app. cbn. lia.
Qed.

(** The state after one more todo, when the loop gets to it. *)
Lemma state_after_snoc (server_todos : list ServerObj) (pre : list Component)
    (local : Component) :
  serializable env pre ->
  state_after env calendar server_todos (pre ++ [local])
  = snd (sync_one env calendar local (state_after env calendar server_todos pre)).
Proof.
  intros Hpre.
  destruct (sync_loop_returns server_todos pre Hpre) as (Hloop & _).
  unfold state_after at 1. unfold sync_loop. rewrite for_each_app.
  fold (sync_loop env calendar server_todos pre). rewrite Hloop.
  cbn [for_each]. unfold bind.
  destruct (sync_one env calendar local _) as [[[] | x] st1]; reflexivity.
Qed.

(** When the loop does not get to a todo, the todo changes nothing. *)
Lemma state_after_raised (server_todos : list ServerObj) (pre post : list Component)
    (x : exn) (st : State) :
  sync_loop env calendar server_todos pre = (Raise x, st) ->
  state_after env calendar server_todos (pre ++ post)
  = state_after env calendar server_todos pre.
Proof.
  intros Hloop. unfold state_after, sync_loop. rewrite for_each_app.
  fold (sync_loop env calendar server_todos pre). rewrite Hloop. reflexivity.
Qed.

End Loop.

(** The state after one more todo, when the loop over [pre] raised or
    returned. *)
Lemma state_after_step (env : Env) (calendar : Calendar)
    (server_todos : list ServerObj) (pre : list Component) (local : Component) :
  state_after env calendar server_todos (pre ++ [local])
  = state_after env calendar server_todos pre
  \/ state_after env calendar server_todos (pre ++ [local])
     = snd (sync_one env calendar local (state_after env calendar server_todos pre)).
Proof.
  destruct (sync_loop env calendar server_todos pre) as [[[] | x] st] eqn:Hloop.
  - right. unfold state_after at 1 2. unfold sync_loop in *. rewrite for_each_app, Hloop.
    cbn [for_each snd]. unfold bind.
    destruct (sync_one env calendar local st) as [[[] | y] st1]; reflexivity.
  - left. eapply state_after_raised. exact Hloop.
Qed.

(** The second disjunct of [same_due] adds nothing to the first. *)
Lemma same_due_eq (x y : option datetime) :
  opt_datetime_eq x y || (is_none x && is_none y) = opt_datetime_eq x y.
Proof. destruct x, y; cbn; auto using orb_false_r. Qed.

(** The turn of the loop on a todo that is on the server as it is. *)
Lemma sync_one_preserve (env : Env) (calendar : Calendar) (local : Component)
    (u : string) (e : ServerEntry) (st : State) :
  comp_get local "UID" = Some u ->
  server_map st !! u = Some e ->
  text_or_empty (server_vtodo e) "SUMMARY" = text_or_empty local "SUMMARY" ->
  opt_datetime_eq (normalized (DUE (server_vtodo e))) (normalized (DUE local)) = true ->
  sync_one env calendar local st
  = (Ret tt,
     {| server_map := server_map st;
        actions := actions st
                   ++ [{| uid := Some u; action := "preserved_server_status";
                          detail := Some ("server_status",
                                          str_get (server_vtodo e) "STATUS") |}];
        calls := calls st |}).
Proof.
  intros Hu He Hsum Hdue.
  unfold_sync. rewrite Hu. cbn [server_map]. rewrite He.
  rewrite normalize_dt_returns, same_due_eq, Hdue, Hsum, String.eqb_refl.
  reflexivity.
Qed.

(** ** The four cases of the reconciliation *)

(** C1: a local todo whose uid is in the uid map, with the summary of the
    server todo (an absent summary read as the empty text) and with a due
    date that normalizes to a value equal under [==] (two absent values
    being equal), gets exactly one action, [preserved_server_status],
    which reports the STATUS found; no call is made and the entry, its
    STATUS included, is left as it was found, whatever that STATUS is.
    When the local todos before it and after it can be serialized, the
    run returns with that action at the position of the todo. *)
Theorem preserve_when_same (env : Env) (calendar : Calendar)
    (server_todos : list ServerObj) (pre post : list Component)
    (local : Component) (u : string) (e : ServerEntry) :
  comp_get local "UID" = Some u ->
  server_map (state_after env calendar server_todos pre) !! u = Some e ->
  text_or_empty (server_vtodo e) "SUMMARY" = text_or_empty local "SUMMARY" ->
  opt_datetime_eq (normalized (DUE (server_vtodo e))) (normalized (DUE local)) = true ->
  sync_one env calendar local (state_after env calendar server_todos pre)
  = (Ret tt,
     {| server_map := server_map (state_after env calendar server_todos pre);
        actions := actions (state_after env calendar server_todos pre)
                   ++ [{| uid := Some u; action := "preserved_server_status";
                          detail := Some ("server_status",
                                          str_get (server_vtodo e) "STATUS") |}];
        calls := calls (state_after env calendar server_todos pre) |})
  /\ server_map (state_after env calendar server_todos (pre ++ [local])) !! u = Some e
  /\ (serializable env pre ->
      serializable env post ->
      exists acts : list Action,
        sync_todos env calendar server_todos (pre ++ local :: post) = Ret acts
        /\ acts !! length pre
           = Some {| uid := Some u; action := "preserved_server_status";
                     detail := Some ("server_status",
                                     str_get (server_vtodo e) "STATUS") |}
        /\ length acts = length (pre ++ local :: post)).
Proof.
  intros Hu He Hsum Hdue.
  pose proof (sync_one_preserve env calendar local u e _ Hu He Hsum Hdue) as Hrun.
  split; [exact Hrun |]. split.
  - destruct (state_after_step env calendar server_todos pre local) as [-> | ->];
      [exact He | rewrite Hrun; exact He].
  - intros Hpre Hpost.
    eapply sync_todos_at; [exact Hpre | exact Hpost | exact Hrun | reflexivity].
Qed.

(** The turn of the loop on a todo whose summary or due date differs. *)
Lemma sync_one_mark (env : Env) (calendar : Calendar) (local : Component)
    (u : string) (e : ServerEntry) (st : State) :
  comp_get local "UID" = Some u ->
  server_map st !! u = Some e ->
  text_or_empty (server_vtodo e) "SUMMARY" <> text_or_empty local "SUMMARY"
  \/ opt_datetime_eq (normalized (DUE (server_vtodo e))) (normalized (DUE local))
     = false ->
  exists (a : Action) (cs : list Call),
    sync_one env calendar local st
    = (Ret tt,
       {| server_map := <[u := with_needs_action e]> (server_map st);
          actions := actions st ++ [a];
          calls := calls st ++ cs |})
    /\ uid a = Some u
    /\ action a
       = match update_failure env (calls st) (server_obj e)
                 (calendar_to_ical (server_cal (with_needs_action e))) with
         | Some _ => "update_failed"
         | None =>
             if handed_over env calendar (calls st) (server_obj e)
                  (calendar_to_ical (server_cal (with_needs_action e)))
             then "set_needs_action" else "set_needs_action_attempted"
         end
    /\ detail a
       = match update_failure env (calls st) (server_obj e)
                 (calendar_to_ical (server_cal (with_needs_action e))) with
         | Some x => Some ("error", exn_str x)
         | None => None
         end
    /\ (forall c : Call,
          In c cs -> call_data c = calendar_to_ical (server_cal (with_needs_action e)))
    /\ (codec env (calendar_to_ical (server_cal (with_needs_action e))) <> None ->
        cs = []).
Proof.
  intros Hu He Hdiff.
  assert (Hsame :
    String.eqb (text_or_empty (server_vtodo e) "SUMMARY")
               (text_or_empty local "SUMMARY")
    && (opt_datetime_eq (normalized (DUE (server_vtodo e))) (normalized (DUE local))
        || (is_none (normalized (DUE (server_vtodo e)))
            && is_none (normalized (DUE local)))) = false).
  { rewrite same_due_eq. destruct Hdiff as [Hne | Hne].
    - apply String.eqb_neq in Hne. rewrite Hne. reflexivity.
    - rewrite Hne. apply andb_false_r. }
  unfold_sync. rewrite Hu. cbn [server_map]. rewrite He.
  rewrite normalize_dt_returns, Hsame.
  fold (with_needs_action e). unfold update_failure, save_failure, handed_over.
  repeat (case_match; simplify_eq; cbn [server_map actions calls] in * );
    rewrite <- ?app_assoc; cbn [app].
  all: try congruence.
  all: first [ do 2 eexists; (split; [reflexivity |])
             | eexists; exists []; (split; [rewrite app_nil_r; reflexivity |]) ];
    cbn [uid action detail];
    (split; [reflexivity |]); (split; [reflexivity |]); (split; [reflexivity |]);
    (split;
     [ intros c Hin; cbn in Hin; intuition (subst; reflexivity)
     | intros Hc; first [reflexivity | congruence] ]).
Qed.

(** C2, as the code has it: a local todo whose uid is in the uid map,
    with a summary other than that of the server todo or with a due date
    that normalizes to a different value, gets exactly one action, and
    the STATUS of the server todo is set to NEEDS-ACTION, whatever it
    was, this value included.  The action is [update_failed], with the
    message of the exception, when the serialization of line 250 or the
    saving call raised; otherwise it is [set_needs_action] when the
    calendar was handed over, and [set_needs_action_attempted] when there
    was nothing to hand it to or the raw PUT raised.  Each call made
    carries the calendar with the new STATUS.  When the local todos
    before it and after it can be serialized, the run returns with that
    action at the position of the todo. *)
Theorem needs_action_when_differs (env : Env) (calendar : Calendar)
    (server_todos : list ServerObj) (pre post : list Component)
    (local : Component) (u : string) (e : ServerEntry) :
  comp_get local "UID" = Some u ->
  server_map (state_after env calendar server_todos pre) !! u = Some e ->
  text_or_empty (server_vtodo e) "SUMMARY" <> text_or_empty local "SUMMARY"
  \/ opt_datetime_eq (normalized (DUE (server_vtodo e))) (normalized (DUE local))
     = false ->
  exists (a : Action) (cs : list Call),
    sync_one env calendar local (state_after env calendar server_todos pre)
    = (Ret tt,
       {| server_map := <[u := with_needs_action e]>
                          (server_map (state_after env calendar server_todos pre));
          actions := actions (state_after env calendar server_todos pre) ++ [a];
          calls := calls (state_after env calendar server_todos pre) ++ cs |})
    /\ uid a = Some u
    /\ action a
       = match update_failure env (calls (state_after env calendar server_todos pre))
                 (server_obj e) (calendar_to_ical (server_cal (with_needs_action e)))
         with
         | Some _ => "update_failed"
         | None =>
             if handed_over env calendar
                  (calls (state_after env calendar server_todos pre))
                  (server_obj e) (calendar_to_ical (server_cal (with_needs_action e)))
             then "set_needs_action" else "set_needs_action_attempted"
         end
    /\ detail a
       = match update_failure env (calls (state_after env calendar server_todos pre))
                 (server_obj e) (calendar_to_ical (server_cal (with_needs_action e)))
         with
         | Some x => Some ("error", exn_str x)
         | None => None
         end
    /\ (forall c : Call,
          In c cs -> call_data c = calendar_to_ical (server_cal (with_needs_action e)))
    /\ comp_get (server_vtodo (with_needs_action e)) "STATUS" = Some "NEEDS-ACTION"
    /\ (serializable env pre ->
        server_map (state_after env calendar server_todos (pre ++ [local])) !! u
        = Some (with_needs_action e))
    /\ (serializable env pre ->
        serializable env post ->
        exists acts : list Action,
          sync_todos env calendar server_todos (pre ++ local :: post) = Ret acts
          /\ acts !! length pre = Some a
          /\ length acts = length (pre ++ local :: post)).
Proof.
  intros Hu He Hdiff.
  assert (Hstatus :
    comp_get (server_vtodo (with_needs_action e)) "STATUS" = Some "NEEDS-ACTION").
  { unfold with_needs_action, comp_get, comp_set. norm_keys.
    cbn [server_vtodo props]. apply lookup_insert_eq. }
  destruct (sync_one_mark env calendar local u e _ Hu He Hdiff)
    as (a & cs & Hrun & Huid & Hact & Hdet & Hdata & _).
  exists a, cs. repeat (split; [assumption |]).
  split.
  - intros Hpre. rewrite state_after_snoc by exact Hpre. rewrite Hrun.
    cbn [snd server_map]. apply lookup_insert_eq.
  - intros Hpre Hpost.
    eapply sync_todos_at; [exact Hpre | exact Hpost | exact Hrun | reflexivity].
Qed.

(** The turn of the loop on a todo the uid map does not have and that
    can be serialized. *)
Lemma sync_one_create (env : Env) (calendar : Calendar) (local : Component)
    (u : string) (st : State) :
  comp_get local "UID" = Some u ->
  server_map st !! u = None ->
  codec env (todo_to_ical local) = None ->
  exists a : Action,
    sync_one env calendar local st
    = (Ret tt,
       {| server_map := server_map st;
          actions := actions st ++ [a];
          calls := calls st
                   ++ match create_call calendar (todo_to_ical local) with
                      | Some c => [c]
                      | None => []
                      end |})
    /\ uid a = Some u
    /\ create_action a
    /\ action a
       = match create_call calendar (todo_to_ical local) with
         | None => "create_attempted"
         | Some c =>
             match remote env (calls st) c with
             | None => "created"
             | Some _ => "create_failed"
             end
         end
    /\ detail a
       = match create_call calendar (todo_to_ical local) with
         | None => None
         | Some c =>
             match remote env (calls st) c with
             | None => None
             | Some x => Some ("error", exn_str x)
             end
         end.
Proof.
  intros Hu He Hc.
  unfold_sync. rewrite Hu. cbn [server_map]. rewrite He, Hc.
  unfold create_call, create_action.
  repeat (case_match; simplify_eq; cbn [server_map actions calls] in * );
    rewrite ?app_nil_r;
    (eexists; split; [reflexivity |]); cbn [uid action detail]; auto 6.
Qed.

(** The turn of the loop on a todo the uid map does not have and that
    cannot be serialized: the exception leaves the loop. *)
Lemma sync_one_unserializable (env : Env) (calendar : Calendar) (local : Component)
    (u : string) (x : exn) (st : State) :
  comp_get local "UID" = Some u ->
  server_map st !! u = None ->
  codec env (todo_to_ical local) = Some x ->
  sync_one env calendar local st = (Raise x, st).
Proof.
  intros Hu He Hc.
  unfold_sync. rewrite Hu. cbn [server_map]. rewrite He, Hc. destruct st. reflexivity.
Qed.

(** C3, as the code has it: a local todo whose uid is not a key of the
    uid map, and that can be serialized, gets exactly one action:
    [created] when the creating call returns, [create_attempted] when
    the calendar has no method to create with, [create_failed], with the
    message of the exception, when the call raises.  The one call made,
    if any, is on the calendar and carries the whole local todo; the uid
    map is left as it was.  When the local todos before it and after it
    can be serialized too, the run returns with that action at the
    position of the todo. *)
Theorem create_when_absent (env : Env) (calendar : Calendar)
    (server_todos : list ServerObj) (pre post : list Component)
    (local : Component) (u : string) :
  comp_get local "UID" = Some u ->
  server_map (state_after env calendar server_todos pre) !! u = None ->
  codec env (todo_to_ical local) = None ->
  exists a : Action,
    sync_one env calendar local (state_after env calendar server_todos pre)
    = (Ret tt,
       {| server_map := server_map (state_after env calendar server_todos pre);
          actions := actions (state_after env calendar server_todos pre) ++ [a];
          calls := calls (state_after env calendar server_todos pre)
                   ++ match create_call calendar (todo_to_ical local) with
                      | Some c => [c]
                      | None => []
                      end |})
    /\ uid a = Some u
    /\ action a
       = match create_call calendar (todo_to_ical local) with
         | None => "create_attempted"
         | Some c =>
             match remote env (calls (state_after env calendar server_todos pre)) c with
             | None => "created"
             | Some _ => "create_failed"
             end
         end
    /\ detail a
       = match create_call calendar (todo_to_ical local) with
         | None => None
         | Some c =>
             match remote env (calls (state_after env calendar server_todos pre)) c with
             | None => None
             | Some x => Some ("error", exn_str x)
             end
         end
    /\ (forall c : Call,
          create_call calendar (todo_to_ical local) = Some c ->
          on_calendar c = true /\ call_data c = todo_to_ical local)
    /\ server_map (state_after env calendar server_todos (pre ++ [local]))
       = server_map (state_after env calendar server_todos pre)
    /\ (serializable env pre ->
        serializable env post ->
        exists acts : list Action,
          sync_todos env calendar server_todos (pre ++ local :: post) = Ret acts
          /\ acts !! length pre = Some a
          /\ length acts = length (pre ++ local :: post)).
Proof.
  intros Hu He Hc.
  destruct (sync_one_create env calendar local u _ Hu He Hc)
    as (a & Hrun & Huid & _ & Hact & Hdet).
  exists a. repeat (split; [assumption |]).
  split.
  - intros c. unfold create_call.
    repeat case_match; intros; simplify_eq; auto.
  - split.
    + destruct (state_after_step env calendar server_todos pre local) as [-> | ->];
        [reflexivity | rewrite Hrun; reflexivity].
    + intros Hpre Hpost.
      eapply sync_todos_at; [exact Hpre | exact Hpost | exact Hrun | reflexivity].
Qed.

(** C4, as the code has it: a local todo without a UID gets exactly one
    action, [skipped], with the reason "local todo missing UID", in
    whatever state the loop is: the uid map is not looked at and no call
    is made.  When the local todos before it and after it can be
    serialized, the run returns with that action at the position of the
    todo. *)
Theorem skip_when_uid_absent (env : Env) (calendar : Calendar)
    (server_todos : list ServerObj) (pre post : list Component)
    (local : Component) (st : State) :
  comp_get local "UID" = None ->
  sync_one env calendar local st
  = (Ret tt,
     {| server_map := server_map st;
        actions := actions st
                   ++ [{| uid := None; action := "skipped";
                          detail := Some ("reason", "local todo missing UID") |}];
        calls := calls st |})
  /\ (serializable env pre ->
      serializable env post ->
      exists acts : list Action,
        sync_todos env calendar server_todos (pre ++ local :: post) = Ret acts
        /\ acts !! length pre
           = Some {| uid := None; action := "skipped";
                     detail := Some ("reason", "local todo missing UID") |}
        /\ length acts = length (pre ++ local :: post)).
Proof.
  intros Hu.
  assert (Hrun : forall s : State,
    sync_one env calendar local s
    = (Ret tt,
       {| server_map := server_map s;
          actions := actions s
                     ++ [{| uid := None; action := "skipped";
                            detail := Some ("reason", "local todo missing UID") |}];
          calls := calls s |})).
  { intros s. unfold_sync. rewrite Hu. reflexivity. }
  split; [apply Hrun |].
  intros Hpre Hpost.
  eapply sync_todos_at; [exact Hpre | exact Hpost | apply Hrun | reflexivity].
Qed.

(** Scenario 1 of the specification: a todo cancelled by hand stays
    cancelled when Gradescope still gives the same title and date. *)
Lemma preserve_when_same_witness :
  exists acts : list Action,
    sync_todos quiet full_calendar [saving remote_hw1] [local_hw1] = Ret acts
    /\ acts !! 0%nat
       = Some {| uid := Some "a"; action := "preserved_server_status";
                 detail := Some ("server_status", "CANCELLED") |}
    /\ server_map (state_after quiet full_calendar [saving remote_hw1] [local_hw1])
       !! "a" = Some (entry_of (saving remote_hw1) remote_hw1).
Proof.
  destruct (preserve_when_same quiet full_calendar [saving remote_hw1] [] []
              local_hw1 "a" (entry_of (saving remote_hw1) remote_hw1))
    as (_ & Hkept & Hall);
    [reflexivity | reflexivity | reflexivity | reflexivity |].
  destruct (Hall (List.Forall_nil _) (List.Forall_nil _)) as (acts & Hrun & Hat & _).
  exists acts. split; [exact Hrun |]. split; [exact Hat | exact Hkept].
Defined.

(** A due date moved by a week sets the status, whatever it was. *)
Lemma needs_action_when_differs_witness :
  exists a : Action,
    (exists acts : list Action,
        sync_todos quiet full_calendar [saving remote_hw1] [local_hw1_moved]
        = Ret acts
        /\ acts !! 0%nat = Some a)
    /\ action a = "set_needs_action"
    /\ server_map
         (state_after quiet full_calendar [saving remote_hw1] [local_hw1_moved])
       !! "a" = Some (with_needs_action (entry_of (saving remote_hw1) remote_hw1)).
Proof.
  destruct (needs_action_when_differs quiet full_calendar [saving remote_hw1] [] []
              local_hw1_moved "a" (entry_of (saving remote_hw1) remote_hw1))
    as (a & cs & _ & _ & Hact & _ & _ & _ & Hmap & Hall);
    [reflexivity | reflexivity | right; reflexivity |].
  destruct (Hall (List.Forall_nil _) (List.Forall_nil _)) as (acts & Hrun & Hat & _).
  exists a. split; [exists acts; split; [exact Hrun | exact Hat] |].
  split; [exact Hact | exact (Hmap (List.Forall_nil _))].
Defined.

(** C2 as the specification states it fails: when the saving call
    raises, the action is [update_failed], not a mark. *)
Lemma failed_save_is_not_a_mark :
  ~ (forall (env : Env) (calendar : Calendar) (server_todos : list ServerObj)
            (local : Component) (u : string) (e : ServerEntry),
        comp_get local "UID" = Some u ->
        build_server_map server_todos !! u = Some e ->
        text_or_empty (server_vtodo e) "SUMMARY" <> text_or_empty local "SUMMARY"
        \/ opt_datetime_eq (normalized (DUE (server_vtodo e)))
             (normalized (DUE local)) = false ->
        exists a : Action,
          sync_todos env calendar server_todos [local] = Ret [a]
          /\ (action a = "set_needs_action"
              \/ action a = "set_needs_action_attempted")).
Proof.
  intros H.
  destruct (H failing full_calendar [saving remote_hw1] local_hw1_revised "a"
              (entry_of (saving remote_hw1) remote_hw1))
    as (a & Hrun & Hact).
  - reflexivity.
  - reflexivity.
  - left. discriminate.
  - vm_compute in Hrun. injection Hrun as <-.
    destruct Hact as [Hact | Hact]; discriminate Hact.
Qed.

(** What the code returns there, and when the calendar with the new
    STATUS cannot be serialized: the STATUS is set in both cases, and in
    the second no call is made. *)
Example failed_save_recorded :
  sync_todos failing full_calendar [saving remote_hw1] [local_hw1_revised]
  = Ret [{| uid := Some "a"; action := "update_failed";
            detail := Some ("error", "503 Service Unavailable") |}]
  /\ server_map (state_after failing full_calendar [saving remote_hw1]
                   [local_hw1_revised]) !! "a"
     = Some (with_needs_action (entry_of (saving remote_hw1) remote_hw1)).
Proof. split; reflexivity. Qed.

Example failed_serialization_recorded :
  sync_todos strict_codec full_calendar [saving remote_hw3_odd] [local_hw3]
  = Ret [{| uid := Some "c"; action := "update_failed";
            detail := Some ("error", "'utf-8' codec can't encode character") |}]
  /\ server_map (state_after strict_codec full_calendar [saving remote_hw3_odd]
                   [local_hw3]) !! "c"
     = Some (with_needs_action (entry_of (saving remote_hw3_odd) remote_hw3_odd))
  /\ calls (state_after strict_codec full_calendar [saving remote_hw3_odd]
              [local_hw3]) = [].
Proof. repeat split. Qed.

(** Scenarios 1, 2, 3 and 5 of the specification, run. *)
Example scenario_1 :
  sync_todos quiet full_calendar [saving remote_hw1] [local_hw1]
  = Ret [{| uid := Some "a"; action := "preserved_server_status";
            detail := Some ("server_status", "CANCELLED") |}].
Proof. reflexivity. Qed.

Example scenario_2 :
  sync_todos quiet full_calendar [saving remote_hw1_open] [local_hw1_revised]
  = Ret [{| uid := Some "a"; action := "set_needs_action"; detail := None |}]
  /\ (forall e : ServerEntry,
        server_map (state_after quiet full_calendar [saving remote_hw1_open]
                      [local_hw1_revised]) !! "a" = Some e ->
        comp_get (server_vtodo e) "STATUS" = Some "NEEDS-ACTION"
        /\ comp_get (server_vtodo e) "SUMMARY" = Some "HW1").
Proof.
  split; [reflexivity |].
  intros e He. vm_compute in He. injection He as <-. split; reflexivity.
Qed.

Example scenario_3 :
  sync_todos quiet full_calendar [saving remote_hw1] [local_hw2]
  = Ret [{| uid := Some "b"; action := "created"; detail := None |}].
Proof. reflexivity. Qed.

Example scenario_5 :
  sync_todos quiet full_calendar
    [saving (vtodo [("UID", "c"); ("SUMMARY", "HW3")] PNone)]
    [vtodo [("UID", "c"); ("SUMMARY", "HW3")] PNone]
  = Ret [{| uid := Some "c"; action := "preserved_server_status";
            detail := Some ("server_status", "None") |}].
Proof. reflexivity. Qed.

(** Scenario 3: a todo the server does not have is created. *)
Lemma create_when_absent_witness :
  exists a : Action,
    (exists acts : list Action,
        sync_todos quiet full_calendar [saving remote_hw1] [local_hw2] = Ret acts
        /\ acts !! 0%nat = Some a)
    /\ uid a = Some "b"
    /\ action a = "created".
Proof.
  destruct (create_when_absent quiet full_calendar [saving remote_hw1] [] []
              local_hw2 "b")
    as (a & _ & Huid & Hact & _ & _ & _ & Hall);
    [reflexivity | reflexivity | reflexivity |].
  destruct (Hall (List.Forall_nil _) (List.Forall_nil _)) as (acts & Hrun & Hat & _).
  exists a. split; [exists acts; split; [exact Hrun | exact Hat] |].
  split; [exact Huid | exact Hact].
Defined.

(** C3 as the specification states it fails: when the creating call
    raises, the action is [create_failed], not a create. *)
Lemma failed_create_is_not_a_create :
  ~ (forall (env : Env) (calendar : Calendar) (server_todos : list ServerObj)
            (local : Component) (u : string),
        comp_get local "UID" = Some u ->
        build_server_map server_todos !! u = None ->
        exists a : Action,
          sync_todos env calendar server_todos [local] = Ret [a]
          /\ (action a = "created" \/ action a = "create_attempted")).
Proof.
  intros H.
  destruct (H failing full_calendar [saving remote_hw1] local_hw2 "b")
    as (a & Hrun & Hact).
  - reflexivity.
  - reflexivity.
  - vm_compute in Hrun. injection Hrun as <-.
    destruct Hact as [Hact | Hact]; discriminate Hact.
Qed.

(** What the code returns there. *)
Example failed_create_recorded :
  sync_todos failing full_calendar [saving remote_hw1] [local_hw2]
  = Ret [{| uid := Some "b"; action := "create_failed";
            detail := Some ("error", "503 Service Unavailable") |}].
Proof. reflexivity. Qed.

(** A local todo that the uid map does not have and that cannot be
    serialized: the exception of line 210 is outside the [try] of line
    212, so the run ends with it, whatever the todos after it are, and
    the actions of the todos before it are not returned. *)
Lemma unserializable_todo_ends_run (env : Env) (calendar : Calendar)
    (server_todos : list ServerObj) (pre post : list Component)
    (local : Component) (u : string) (x : exn) :
  serializable env pre ->
  comp_get local "UID" = Some u ->
  server_map (state_after env calendar server_todos pre) !! u = None ->
  codec env (todo_to_ical local) = Some x ->
  sync_todos env calendar server_todos (pre ++ local :: post) = Raise x.
Proof.
  intros Hpre Hu He Hc.
  destruct (sync_loop_returns env calendar server_todos pre Hpre) as (Hloop & _).
  unfold sync_todos, sync_loop. rewrite for_each_app.
  fold (sync_loop env calendar server_todos pre). rewrite Hloop.
  cbn [for_each]. unfold bind.
  rewrite (sync_one_unserializable env calendar local u x _ Hu He Hc).
  reflexivity.
Qed.

Example unserializable_todo_sample :
  sync_todos strict_codec full_calendar [saving remote_hw1]
    [local_hw2; local_hw3_odd; local_hw1]
  = Raise (Exn false "'utf-8' codec can't encode character")
  /\ actions (state_after strict_codec full_calendar [saving remote_hw1]
                [local_hw2; local_hw3_odd; local_hw1])
     = [{| uid := Some "b"; action := "created"; detail := None |}]
  /\ calls (state_after strict_codec full_calendar [saving remote_hw1]
              [local_hw2; local_hw3_odd; local_hw1])
     = [calendar_add_todo (todo_to_ical local_hw2)].
Proof. repeat split. Qed.

(** A todo without a UID is skipped. *)
Lemma skip_when_uid_absent_witness :
  exists acts : list Action,
    sync_todos quiet full_calendar [saving remote_hw1] [local_no_uid] = Ret acts
    /\ acts !! 0%nat
       = Some {| uid := None; action := "skipped";
                 detail := Some ("reason", "local todo missing UID") |}.
Proof.
  destruct (skip_when_uid_absent quiet full_calendar [saving remote_hw1] [] []
              local_no_uid
              {| server_map := ∅; actions := []; calls := [] |})
    as (_ & Hall); [reflexivity |].
  destruct (Hall (List.Forall_nil _) (List.Forall_nil _)) as (acts & Hrun & Hat & _).
  exists acts. split; [exact Hrun | exact Hat].
Defined.

(** C4 as the specification states it fails: a todo whose UID is the
    empty text is not skipped.  Its uid is looked up in the uid map,
    which never has the empty key, and the todo is created on the
    server. *)
Lemma empty_uid_not_skipped :
  ~ (forall (env : Env) (calendar : Calendar) (server_todos : list ServerObj)
            (local : Component),
        comp_get local "UID" = None \/ comp_get local "UID" = Some "" ->
        exists a : Action,
          sync_todos env calendar server_todos [local] = Ret [a]
          /\ action a = "skipped"
          /\ calls (state_after env calendar server_todos [local]) = []).
Proof.
  intros H.
  destruct (H quiet full_calendar [] local_empty_uid) as (a & Hrun & Hact & _).
  - right. reflexivity.
  - vm_compute in Hrun. injection Hrun as <-. discriminate Hact.
Qed.

(** What the code does with that todo. *)
Example empty_uid_created :
  comp_get local_empty_uid "UID" = Some ""
  /\ sync_todos quiet full_calendar [] [local_empty_uid]
     = Ret [{| uid := Some ""; action := "created"; detail := None |}]
  /\ calls (state_after quiet full_calendar [] [local_empty_uid])
     = [calendar_add_todo (todo_to_ical local_empty_uid)].
Proof. repeat split. Qed.

(** ** The frame of a whole run *)

(** C5: from the uid map built to the uid map at the end of the loop, no
    key comes or goes, and an entry changes in the STATUS of its VTODO at
    most, which is as it was or NEEDS-ACTION: the summary, the due value
    and every other property of every server todo are as they were. *)
Theorem status_is_the_only_write (env : Env) (calendar : Calendar)
    (server_todos : list ServerObj) (todos : list Component) :
  map_frame (build_server_map server_todos)
            (server_map (state_after env calendar server_todos todos))
  /\ (forall (k : string) (e : ServerEntry),
        build_server_map server_todos !! k = Some e ->
        exists e' : ServerEntry,
          server_map (state_after env calendar server_todos todos) !! k = Some e'
          /\ server_obj e' = server_obj e
          /\ before e' = before e
          /\ after e' = after e
          /\ comp_get (server_vtodo e') "SUMMARY" = comp_get (server_vtodo e) "SUMMARY"
          /\ DUE (server_vtodo e') = DUE (server_vtodo e)
          /\ (forall key : string,
                upper key <> "STATUS" ->
                comp_get (server_vtodo e') key = comp_get (server_vtodo e) key)
          /\ (comp_get (server_vtodo e') "STATUS" = comp_get (server_vtodo e) "STATUS"
              \/ comp_get (server_vtodo e') "STATUS" = Some "NEEDS-ACTION")).
Proof.
  assert (Hframe :
    map_frame (build_server_map server_todos)
              (server_map (state_after env calendar server_todos todos))).
  { unfold state_after, sync_loop.
    match goal with
    | |- context [for_each _ todos ?st] =>
        destruct (for_each_frame env calendar todos st) as (_ & _ & Hf & _)
    end.
    exact Hf. }
  split; [exact Hframe |].
  intros k e He. specialize (Hframe k). rewrite He in Hframe.
  destruct (server_map (state_after env calendar server_todos todos) !! k)
    as [e' |]; [| contradiction].
  destruct Hframe as (Ho & Hb & Ha & Hn & Hd & Hc & Hk & Hs).
  exists e'. unfold comp_get. norm_keys.
  repeat (split; [first [reflexivity | assumption] |]).
  split; [apply Hk; discriminate |].
  split; [assumption |].
  split; [intros key Hkey; apply Hk; exact Hkey | exact Hs].
Qed.

(** ** Failures of the collaborators *)

(** C8, as the code has it.  An exception of the creating call, for a
    local todo that can be serialized, gives [create_failed] with its
    message.  An exception that reaches the handler of line 279 (that
    of the serialization of line 250, or that of [save], after one more
    try when it is a [TypeError], or of [put], or of [_put]) gives
    [update_failed] with its message.  When none reaches it, the action
    is [set_needs_action] or [set_needs_action_attempted] and carries no
    message, whatever the first [save] or the raw PUT of line 273 did.
    The loop then goes on: when the local todos can be serialized, the
    run returns, with one action for each local todo. *)
Theorem failure_recorded_and_loop_goes_on (env : Env) (calendar : Calendar)
    (server_todos : list ServerObj) (pre post : list Component)
    (local : Component) (u : string) :
  comp_get local "UID" = Some u ->
  (forall (c : Call) (x : exn),
      server_map (state_after env calendar server_todos pre) !! u = None ->
      codec env (todo_to_ical local) = None ->
      create_call calendar (todo_to_ical local) = Some c ->
      remote env (calls (state_after env calendar server_todos pre)) c = Some x ->
      sync_one env calendar local (state_after env calendar server_todos pre)
      = (Ret tt,
         {| server_map := server_map (state_after env calendar server_todos pre);
            actions := actions (state_after env calendar server_todos pre)
                       ++ [{| uid := Some u; action := "create_failed";
                              detail := Some ("error", exn_str x) |}];
            calls := calls (state_after env calendar server_todos pre) ++ [c] |}))
  /\ (forall (e : ServerEntry) (x : exn),
        server_map (state_after env calendar server_todos pre) !! u = Some e ->
        text_or_empty (server_vtodo e) "SUMMARY" <> text_or_empty local "SUMMARY"
        \/ opt_datetime_eq (normalized (DUE (server_vtodo e)))
             (normalized (DUE local)) = false ->
        update_failure env (calls (state_after env calendar server_todos pre))
          (server_obj e) (calendar_to_ical (server_cal (with_needs_action e)))
        = Some x ->
        exists cs : list Call,
          sync_one env calendar local (state_after env calendar server_todos pre)
          = (Ret tt,
             {| server_map := <[u := with_needs_action e]>
                                (server_map (state_after env calendar server_todos pre));
                actions := actions (state_after env calendar server_todos pre)
                           ++ [{| uid := Some u; action := "update_failed";
                                  detail := Some ("error", exn_str x) |}];
                calls := calls (state_after env calendar server_todos pre) ++ cs |}))
  /\ (forall e : ServerEntry,
        server_map (state_after env calendar server_todos pre) !! u = Some e ->
        text_or_empty (server_vtodo e) "SUMMARY" <> text_or_empty local "SUMMARY"
        \/ opt_datetime_eq (normalized (DUE (server_vtodo e)))
             (normalized (DUE local)) = false ->
        update_failure env (calls (state_after env calendar server_todos pre))
          (server_obj e) (calendar_to_ical (server_cal (with_needs_action e)))
        = None ->
        exists (a : Action) (cs : list Call),
          sync_one env calendar local (state_after env calendar server_todos pre)
          = (Ret tt,
             {| server_map := <[u := with_needs_action e]>
                                (server_map (state_after env calendar server_todos pre));
                actions := actions (state_after env calendar server_todos pre) ++ [a];
                calls := calls (state_after env calendar server_todos pre) ++ cs |})
          /\ (action a = "set_needs_action" \/ action a = "set_needs_action_attempted")
          /\ detail a = None)
  /\ (serializable env (pre ++ local :: post) ->
      exists acts : list Action,
        sync_todos env calendar server_todos (pre ++ local :: post) = Ret acts
        /\ length acts = length (pre ++ local :: post)).
Proof.
  intros Hu.
  split; [| split; [| split]].
  - intros c x He Hser Hc Hx.
    destruct (sync_one_create env calendar local u _ Hu He Hser)
      as (a & Hrun & Huid & _ & Hact & Hdet).
    rewrite Hc, Hx in Hact, Hdet. rewrite Hc in Hrun. rewrite Hrun.
    destruct a as [au aa ad]. cbn in Huid, Hact, Hdet. subst. reflexivity.
  - intros e x He Hdiff Hx.
    destruct (sync_one_mark env calendar local u e _ Hu He Hdiff)
      as (a & cs & Hrun & Huid & Hact & Hdet & _).
    rewrite Hx in Hact, Hdet. exists cs. rewrite Hrun.
    destruct a as [au aa ad]. cbn in Huid, Hact, Hdet. subst. reflexivity.
  - intros e He Hdiff Hx.
    destruct (sync_one_mark env calendar local u e _ Hu He Hdiff)
      as (a & cs & Hrun & _ & Hact & Hdet & _).
    rewrite Hx in Hact, Hdet. exists a, cs. split; [exact Hrun |].
    split; [| exact Hdet].
    rewrite Hact. destruct (handed_over _ _ _ _ _); auto.
  - intros Hall. apply List.Forall_app in Hall. destruct Hall as [Hpre Hall].
    inversion Hall as [| ? ? Hser Hpost]; subst.
    destruct (sync_one_returns env calendar local
                (state_after env calendar server_todos pre) Hser)
      as (st' & a & cs & Hrun & Ha & _).
    destruct (sync_todos_at env calendar server_todos pre post local st' a
                Hpre Hpost Hrun Ha)
      as (acts & Hacts & _ & Hlen).
    exists acts. split; assumption.
Qed.

(** A server that is down: the todo to create and the todo to update both
    fail, each with the message of its exception, and both are answered. *)
Lemma failure_recorded_and_loop_goes_on_witness :
  sync_one failing full_calendar local_hw2
    (state_after failing full_calendar [saving remote_hw1] [])
  = (Ret tt,
     {| server_map := server_map (state_after failing full_calendar
                                    [saving remote_hw1] []);
        actions := [{| uid := Some "b"; action := "create_failed";
                       detail := Some ("error", "503 Service Unavailable") |}];
        calls := [calendar_add_todo (todo_to_ical local_hw2)] |})
  /\ exists acts : list Action,
       sync_todos failing full_calendar [saving remote_hw1]
         [local_hw2; local_hw1_revised] = Ret acts
       /\ length acts = 2%nat.
Proof.
  destruct (failure_recorded_and_loop_goes_on failing full_calendar
              [saving remote_hw1] [] [local_hw1_revised] local_hw2 "b")
    as (Hcreate & _ & _ & Hall); [reflexivity |].
  split.
  - apply (Hcreate (calendar_add_todo (todo_to_ical local_hw2))
                   (Exn false "503 Service Unavailable"));
      reflexivity.
  - apply Hall. repeat constructor.
Defined.

(** C8 as the specification states it fails: the raw PUT of line 273
    raises, the exception is dropped, and the action is
    [set_needs_action_attempted], without a message. *)
Lemma put_failure_not_recorded :
  ~ (forall (env : Env) (calendar : Calendar) (local : Component) (st : State),
        some_call_raised env (calls st)
          (drop (length (calls st))
                (calls (snd (sync_one env calendar local st)))) = true ->
        exists (a : Action) (msg : string),
          actions (snd (sync_one env calendar local st)) = actions st ++ [a]
          /\ (action a = "create_failed" \/ action a = "update_failed")
          /\ detail a = Some ("error", msg)).
Proof.
  intros H.
  destruct (H put_refused full_calendar local_hw1_revised
              (state_after put_refused full_calendar [url_only remote_hw1] []))
    as (a & msg & Hacts & _ & Hdet).
  - reflexivity.
  - vm_compute in Hacts. injection Hacts as <-. discriminate Hdet.
Qed.

(** What the code returns there, and when the first [save] raises a
    [TypeError] and the second returns. *)
Example put_failure_attempted :
  sync_todos put_refused full_calendar [url_only remote_hw1] [local_hw1_revised]
  = Ret [{| uid := Some "a"; action := "set_needs_action_attempted";
            detail := None |}].
Proof. reflexivity. Qed.

Example save_tried_again :
  sync_todos save_picky full_calendar [saving remote_hw1] [local_hw1_revised]
  = Ret [{| uid := Some "a"; action := "set_needs_action"; detail := None |}]
  /\ length (calls (state_after save_picky full_calendar [saving remote_hw1]
                      [local_hw1_revised])) = 2%nat.
Proof. split; reflexivity. Qed.

(** ** The uid map *)

Lemma add_unusable (m : gmap string ServerEntry) (s : ServerObj) :
  usable s = false -> add_server_todo m s = m.
Proof.
  unfold usable, add_server_todo.
  destruct (_extract_vtodo_and_calendar s) as [[[b v] a] | x]; [| reflexivity].
  destruct (comp_get v "UID") as [k |]; [| reflexivity].
  intros ->. reflexivity.
Qed.

Lemma build_without_unusable (ss1 ss2 : list ServerObj) (s : ServerObj) :
  usable s = false ->
  build_server_map (ss1 ++ s :: ss2) = build_server_map (ss1 ++ ss2).
Proof.
  intros Hs. unfold build_server_map. rewrite !fold_left_app. cbn [fold_left].
  rewrite add_unusable by assumption. reflexivity.
Qed.

(** Every entry comes from a server todo that parses, and sits under the
    UID of its VTODO, which is not empty. *)
Lemma fold_add_origin (all ss : list ServerObj) (m : gmap string ServerEntry) :
  (forall s, In s ss -> In s all) ->
  (forall k e, m !! k = Some e ->
     k <> "" /\ In (server_obj e) all
     /\ _extract_vtodo_and_calendar (server_obj e)
        = Ret (before e, server_vtodo e, after e)
     /\ comp_get (server_vtodo e) "UID" = Some k) ->
  forall k e, fold_left add_server_todo ss m !! k = Some e ->
     k <> "" /\ In (server_obj e) all
     /\ _extract_vtodo_and_calendar (server_obj e)
        = Ret (before e, server_vtodo e, after e)
     /\ comp_get (server_vtodo e) "UID" = Some k.
Proof.
  revert m. induction ss as [| s rest IH]; intros m Hin Hm; [exact Hm |].
  cbn [fold_left]. apply IH.
  - intros s' Hs'. apply Hin. right. exact Hs'.
  - intros k e. unfold add_server_todo.
    destruct (_extract_vtodo_and_calendar s) as [[[b v] a] | x] eqn:Hex; [| apply Hm].
    destruct (comp_get v "UID") as [k' |] eqn:Hk'; [| apply Hm].
    cbn [truthy]. destruct (String.eqb_spec k' "") as [-> | Hne]; cbn [negb];
      [apply Hm |].
    destruct (decide (k' = k)) as [<- | Hkk].
    + rewrite lookup_insert_eq. intros H. injection H as <-.
      cbn [server_obj before server_vtodo after].
      repeat split; try assumption. apply Hin. left. reflexivity.
    + rewrite lookup_insert_ne by assumption. apply Hm.
Qed.

(** C10: a server todo that does not parse, or whose VTODO has no UID or
    an empty one, is left out of the uid map: the map, and with it all
    that [sync_todos] returns, is what it is without that todo; every
    entry of the map sits under the non-empty UID of a parsed server
    todo; and when no server todo is usable, every local todo with a UID
    takes the creating branch, whatever the server todos contain, in a
    run whose local todos can be serialized. *)
Theorem unusable_server_todo_left_out :
  (forall (ss1 ss2 : list ServerObj) (s : ServerObj),
      usable s = false ->
      build_server_map (ss1 ++ s :: ss2) = build_server_map (ss1 ++ ss2))
  /\ (forall (ss : list ServerObj) (k : string) (e : ServerEntry),
        build_server_map ss !! k = Some e ->
        k <> "" /\ In (server_obj e) ss /\ usable (server_obj e) = true
        /\ _extract_vtodo_and_calendar (server_obj e)
           = Ret (before e, server_vtodo e, after e)
        /\ comp_get (server_vtodo e) "UID" = Some k)
  /\ (forall (env : Env) (calendar : Calendar) (ss1 ss2 : list ServerObj)
             (s : ServerObj) (todos : list Component),
        usable s = false ->
        sync_todos env calendar (ss1 ++ s :: ss2) todos
        = sync_todos env calendar (ss1 ++ ss2) todos)
  /\ (forall (env : Env) (calendar : Calendar) (ss : list ServerObj)
             (pre post : list Component) (local : Component) (u : string),
        (forall s, In s ss -> usable s = false) ->
        comp_get local "UID" = Some u ->
        serializable env (pre ++ local :: post) ->
        exists (a : Action) (acts : list Action),
          sync_todos env calendar ss (pre ++ local :: post) = Ret acts
          /\ acts !! length pre = Some a
          /\ uid a = Some u
          /\ create_action a).
Proof.
  split; [| split; [| split]].
  - intros ss1 ss2 s Hs. apply build_without_unusable. exact Hs.
  - intros ss k e He.
    destruct (fold_add_origin ss ss ∅ (fun s H => H)
                ltac:(intros k' e' H'; rewrite lookup_empty in H'; discriminate)
                k e He) as (Hk & Hin & Hex & Hu).
    repeat split; try assumption.
    unfold usable. rewrite Hex, Hu. cbn [truthy].
    destruct (String.eqb_spec k ""); [contradiction | reflexivity].
  - intros env calendar ss1 ss2 s todos Hs.
    unfold sync_todos, sync_loop. rewrite build_without_unusable by assumption.
    reflexivity.
  - intros env calendar ss pre post local u Hall Hu Hser.
    apply List.Forall_app in Hser. destruct Hser as [Hpre Hser].
    inversion Hser as [| ? ? Hc Hpost]; subst.
    assert (Hempty : build_server_map ss = ∅).
    { unfold build_server_map. generalize (∅ : gmap string ServerEntry).
      induction ss as [| s rest IH]; intros m; [reflexivity |].
      cbn [fold_left]. rewrite add_unusable by (apply Hall; left; reflexivity).
      apply IH. intros s' Hs'. apply Hall. right. exact Hs'. }
    assert (Hnone : server_map (state_after env calendar ss pre) !! u = None).
    { unfold state_after, sync_loop.
      match goal with
      | |- context [for_each _ pre ?st] =>
          destruct (for_each_frame env calendar pre st) as (_ & _ & Hf & _)
      end.
      apply map_frame_empty. rewrite <- Hempty. exact Hf. }
    destruct (sync_one_create env calendar local u _ Hu Hnone Hc)
      as (a & Hrun & Huid & Hkind & _).
    destruct (sync_todos_at env calendar ss pre post local _ a Hpre Hpost Hrun eq_refl)
      as (acts & Hacts & Hat & _).
    exists a, acts. repeat split; assumption.
Qed.

(** A server todo with an empty UID and a local todo with the same
    content: the local one is created once more. *)
Example same_content_created_again :
  usable (saving local_empty_uid) = false
  /\ build_server_map [saving local_empty_uid] = ∅
  /\ sync_todos quiet full_calendar [saving local_empty_uid] [local_empty_uid]
     = Ret [{| uid := Some ""; action := "created"; detail := None |}].
Proof. repeat split. Qed.

(** * More of the code *)

(** ** Finding the VTODO (lines 104-107) *)

Lemma find_vtodo_split (seen cal b a : list Component) (v : Component) :
  find_vtodo seen cal = Some (b, v, a) ->
  exists skipped : list Component,
    b = seen ++ skipped
    /\ cal = skipped ++ v :: a
    /\ name v = "VTODO"
    /\ Forall (fun c => name c <> "VTODO") skipped.
Proof.
  revert seen. induction cal as [| comp rest IH]; intros seen H; [discriminate |].
  cbn [find_vtodo] in H.
  destruct (String.eqb_spec (name comp) "VTODO") as [Hn | Hn].
  - injection H as <- <- <-. exists []. rewrite app_nil_r. auto.
  - destruct (IH _ H) as (skipped & -> & -> & Hv & Hs).
    exists (comp :: skipped). rewrite <- app_assoc. cbn. auto.
Qed.

Lemma find_vtodo_none (seen cal : list Component) :
  find_vtodo seen cal = None <-> Forall (fun c => name c <> "VTODO") cal.
Proof.
  revert seen. induction cal as [| comp rest IH]; intros seen; cbn [find_vtodo].
  - split; auto.
  - destruct (String.eqb_spec (name comp) "VTODO") as [Hn | Hn].
    + split; [discriminate |]. intros H. inversion H. contradiction.
    + rewrite IH. split; [auto |]. intros H. inversion H. assumption.
Qed.

(** X1: when the extraction returns, the VTODO it gives is the first
    component of the parsed calendar that is named VTODO: the calendar is
    the components before it, which are not VTODOs, then it, then the
    rest. *)
Theorem extract_gives_first_vtodo (s : ServerObj) (b a : list Component)
    (v : Component) :
  _extract_vtodo_and_calendar s = Ret (b, v, a) ->
  parsed s = Ret (b ++ v :: a)
  /\ name v = "VTODO"
  /\ Forall (fun c => name c <> "VTODO") b.
Proof.
  unfold _extract_vtodo_and_calendar.
  destruct (parsed s) as [cal | x]; [| discriminate].
  destruct (find_vtodo [] cal) as [[[b' v'] a'] |] eqn:Hf; [| discriminate].
  intros H. injection H as -> -> ->.
  destruct (find_vtodo_split _ _ _ _ _ Hf) as (skipped & -> & -> & Hv & Hs).
  auto.
Qed.

Lemma extract_gives_first_vtodo_witness :
  parsed (saving remote_hw1) = Ret ([vcalendar] ++ remote_hw1 :: [])
  /\ name remote_hw1 = "VTODO"
  /\ Forall (fun c => name c <> "VTODO") [vcalendar].
Proof.
  apply (extract_gives_first_vtodo (saving remote_hw1) [vcalendar] [] remote_hw1).
  reflexivity.
Defined.

(** X2: a server object that parses to a calendar raises "No VTODO
    component found inside server calendar data" exactly when no
    component of the calendar is named VTODO, and then it does not enter
    the uid map. *)
Theorem extract_raises_without_vtodo (s : ServerObj) (cal : list Component) :
  parsed s = Ret cal ->
  (_extract_vtodo_and_calendar s
   = Raise (Exn false "No VTODO component found inside server calendar data")
   <-> Forall (fun c => name c <> "VTODO") cal)
  /\ (Forall (fun c => name c <> "VTODO") cal ->
      forall m : gmap string ServerEntry, add_server_todo m s = m).
Proof.
  intros Hp. split.
  - unfold _extract_vtodo_and_calendar. rewrite Hp. rewrite <- (find_vtodo_none []).
    destruct (find_vtodo [] cal) as [[[b v] a] |]; split; intros H;
      first [discriminate | reflexivity].
  - intros Hall m. unfold add_server_todo, _extract_vtodo_and_calendar.
    rewrite Hp. apply (find_vtodo_none []) in Hall. rewrite Hall. reflexivity.
Qed.

Lemma extract_raises_without_vtodo_witness :
  _extract_vtodo_and_calendar event_only
  = Raise (Exn false "No VTODO component found inside server calendar data")
  /\ build_server_map [event_only] = ∅.
Proof.
  destruct (extract_raises_without_vtodo event_only [vcalendar; vevent] eq_refl)
    as (Hiff & Hmap).
  split.
  - apply Hiff. repeat constructor; discriminate.
  - apply (Hmap ltac:(repeat constructor; discriminate) ∅).
Defined.

(** ** Probing a server todo (lines 72-102) *)

(** X3: a parsed calendar on the object is used before any raw data:
    with a [vobject_instance] that is not [None], nothing else of the
    object is looked at, and without one but with an [instance] that is
    not [None], the raw attributes are not looked at. *)
Theorem probe_prefers_parsed (from_ical : string -> res (list Component))
    (o o' : TodoObj) :
  (o_vobject_instance o <> None
   /\ o_vobject_instance o' = o_vobject_instance o)
  \/ (o_vobject_instance o = None /\ o_vobject_instance o' = None
      /\ o_instance o <> None /\ o_instance o' = o_instance o) ->
  probe from_ical o' = probe from_ical o.
Proof.
  unfold probe. intros [[Hv ->] | (-> & -> & Hi & ->)].
  - destruct (o_vobject_instance o); [reflexivity | contradiction].
  - destruct (o_instance o); [reflexivity | contradiction].
Qed.

Lemma probe_prefers_parsed_witness :
  probe toy_from_ical with_instance_obj = probe toy_from_ical with_instance_only_obj
  /\ probe toy_from_ical with_instance_obj = Ret [vcalendar; remote_hw1_open].
Proof.
  split; [| reflexivity].
  apply (probe_prefers_parsed toy_from_ical with_instance_only_obj with_instance_obj).
  right. repeat split; discriminate.
Defined.

Lemma probe_raw_nothing (attrs : list raw_attr) :
  Forall (fun a => raw_yield a = None \/ raw_yield a = Some None) attrs ->
  probe_raw None attrs = None.
Proof.
  induction 1 as [| a rest Ha _ IH]; [reflexivity |].
  destruct a as [| v | [v | x]]; cbn in *;
    destruct Ha as [Ha | Ha]; try discriminate; try exact IH;
    injection Ha as ->; exact IH.
Qed.

(** X4: an object without a parsed calendar, whose raw attributes are
    missing, hold [None], return [None] or raise when called, gives
    nothing to parse: the probing raises "Unable to extract iCalendar
    data ...", the parser is not called, and the object does not enter
    the uid map. *)
Theorem probe_without_data (from_ical : string -> res (list Component))
    (o : TodoObj) :
  o_vobject_instance o = None ->
  o_instance o = None ->
  Forall (fun a => raw_yield a = None \/ raw_yield a = Some None)
         [o_data o; o__data o; o_raw o; o_ical o; o__get_data o] ->
  probe from_ical o
  = Raise (Exn false
      "Unable to extract iCalendar data from server todo object; adjust this module for your caldav client API")
  /\ usable (server_todo from_ical o) = false.
Proof.
  intros Hv Hi Hall.
  assert (Hp : probe from_ical o
    = Raise (Exn false
        "Unable to extract iCalendar data from server todo object; adjust this module for your caldav client API")).
  { unfold probe. rewrite Hv, Hi, (probe_raw_nothing _ Hall). reflexivity. }
  split; [exact Hp |].
  unfold usable, _extract_vtodo_and_calendar, server_todo. cbn [parsed].
  rewrite Hp. reflexivity.
Qed.

Lemma probe_without_data_witness :
  probe toy_from_ical bare_obj
  = Raise (Exn false
      "Unable to extract iCalendar data from server todo object; adjust this module for your caldav client API")
  /\ usable (server_todo toy_from_ical bare_obj) = false.
Proof.
  apply (probe_without_data toy_from_ical bare_obj);
    [reflexivity | reflexivity |].
  repeat constructor.
Defined.

(** X5: among the raw attributes, read in the order [data], [_data],
    [raw], [ical], [_get_data], the first that gives a true value (a
    text that is not empty) decides: attributes before it that are
    missing, empty or raising, and all attributes after it, do not
    count. *)
Theorem probe_raw_first_true (init : option string) (skipped rest : list raw_attr)
    (a : raw_attr) (r : string) :
  Forall (fun x => forall v, raw_yield x = Some v -> truthy v = false) skipped ->
  raw_yield a = Some (Some r) ->
  r <> "" ->
  probe_raw init (skipped ++ a :: rest) = Some r.
Proof.
  intros Hskip Ha Hr. revert init.
  induction Hskip as [| x skipped Hx _ IH]; intros init; cbn [app probe_raw].
  - assert (Ht : truthy (Some r) = true).
    { cbn. destruct (String.eqb_spec r ""); [contradiction | reflexivity]. }
    destruct a as [| v | [v | e]]; cbn in Ha; try discriminate;
      injection Ha as ->; rewrite Ht; reflexivity.
  - destruct x as [| v | [v | e]]; cbn in Hx; try apply IH;
      rewrite (Hx v eq_refl); apply IH.
Qed.

Lemma probe_raw_first_true_witness :
  probe_raw None
    [o_data with_data_obj; o__data with_data_obj; o_raw with_data_obj;
     o_ical with_data_obj; o__get_data with_data_obj]
  = Some "BEGIN:VCALENDAR..."
  /\ probe toy_from_ical with_data_obj = Ret [vcalendar; remote_hw1].
Proof.
  split; [| reflexivity].
  apply (probe_raw_first_true None [raw_value (Some "")]
           [raw_value (Some "garbage"); raw_missing; raw_missing]
           (raw_callable (Ret (Some "BEGIN:VCALENDAR..."))) "BEGIN:VCALENDAR...").
  - repeat constructor. intros v H. injection H as <-. reflexivity.
  - reflexivity.
  - discriminate.
Defined.

(** ** Server todos with the same UID (line 191) *)

Lemma add_other_uid (m : gmap string ServerEntry) (s : ServerObj) (u : string) :
  (forall b v a, _extract_vtodo_and_calendar s = Ret (b, v, a) ->
                 comp_get v "UID" <> Some u) ->
  add_server_todo m s !! u = m !! u.
Proof.
  intros Hs. unfold add_server_todo.
  destruct (_extract_vtodo_and_calendar s) as [[[b v] a] | x]; [| reflexivity].
  specialize (Hs b v a eq_refl).
  destruct (comp_get v "UID") as [k |]; [| reflexivity].
  destruct (truthy (Some k)); [| reflexivity].
  apply lookup_insert_ne. congruence.
Qed.

Lemma fold_add_other_uid (ss : list ServerObj) (m : gmap string ServerEntry)
    (u : string) :
  (forall s, In s ss ->
     forall b v a, _extract_vtodo_and_calendar s = Ret (b, v, a) ->
                   comp_get v "UID" <> Some u) ->
  fold_left add_server_todo ss m !! u = m !! u.
Proof.
  revert m. induction ss as [| s rest IH]; intros m Hall; [reflexivity |].
  cbn [fold_left]. rewrite IH.
  - apply add_other_uid. apply Hall. left. reflexivity.
  - intros s' Hs'. apply Hall. right. exact Hs'.
Qed.

(** X6: a server todo that parses and has a UID that is not empty is
    found under that UID in the uid map, with its own object, VTODO and
    calendar, unless a server todo listed after it has the same UID: of
    several server todos with one UID, the last one listed is the one
    the local todo is compared with. *)
Theorem last_server_todo_wins (before_s after_s : list ServerObj) (s : ServerObj)
    (b a : list Component) (v : Component) (u : string) :
  _extract_vtodo_and_calendar s = Ret (b, v, a) ->
  comp_get v "UID" = Some u ->
  u <> "" ->
  (forall s', In s' after_s ->
     forall b' v' a', _extract_vtodo_and_calendar s' = Ret (b', v', a') ->
                      comp_get v' "UID" <> Some u) ->
  build_server_map (before_s ++ s :: after_s) !! u
  = Some {| server_obj := s; before := b; server_vtodo := v; after := a |}.
Proof.
  intros Hex Hu Hne Hafter.
  unfold build_server_map. rewrite fold_left_app. cbn [fold_left].
  rewrite fold_add_other_uid by exact Hafter.
  unfold add_server_todo. rewrite Hex, Hu. cbn [truthy].
  destruct (String.eqb_spec u ""); [contradiction |]. cbn [negb].
  apply lookup_insert_eq.
Qed.

(** Two server todos with the UID "a": the local todo meets the second. *)
Lemma last_server_todo_wins_witness :
  build_server_map ([saving remote_hw1] ++ saving remote_hw1_open :: [event_only])
  !! "a"
  = Some (entry_of (saving remote_hw1_open) remote_hw1_open).
Proof.
  apply (last_server_todo_wins [saving remote_hw1] [event_only]
           (saving remote_hw1_open) [vcalendar] [] remote_hw1_open "a").
  - reflexivity.
  - reflexivity.
  - discriminate.
  - intros s' [<- | []] b' v' a' H. discriminate H.
Defined.

(** ** What a run touches *)

(** X7: a server todo whose UID is the UID of no local todo is left as it
    was listed: what the uid map holds under its UID at the end of the
    run is what it held at the start (nothing is deleted, nothing is
    marked). *)
Theorem unmatched_server_todo_untouched (env : Env) (calendar : Calendar)
    (server_todos : list ServerObj) (todos : list Component) (k : string) :
  (forall local, In local todos -> comp_get local "UID" <> Some k) ->
  server_map (state_after env calendar server_todos todos) !! k
  = build_server_map server_todos !! k.
Proof.
  intros Hk. unfold state_after, sync_loop.
  match goal with
  | |- context [for_each _ todos ?st] =>
      destruct (for_each_frame env calendar todos st) as (_ & _ & _ & Hmap)
  end.
  rewrite Hmap by exact Hk. reflexivity.
Qed.

(** HW2 is synced; HW1, on the server, is as it was. *)
Lemma unmatched_server_todo_untouched_witness :
  server_map (state_after failing full_calendar [saving remote_hw1] [local_hw2])
  !! "a"
  = build_server_map [saving remote_hw1] !! "a".
Proof.
  apply (unmatched_server_todo_untouched failing full_calendar
           [saving remote_hw1] [local_hw2] "a").
  intros local [<- | []]. discriminate.
Defined.

(** X8: a list returned has one action for each local todo, in the
    order of the local todos, and the [uid] of each action is the UID of
    its local todo ([None] for a todo without one); and a list is
    returned when the local todos can be serialized. *)
Theorem actions_follow_local_todos (env : Env) (calendar : Calendar)
    (server_todos : list ServerObj) (todos : list Component) :
  (forall acts : list Action,
      sync_todos env calendar server_todos todos = Ret acts ->
      map uid acts = map (fun local => comp_get local "UID") todos)
  /\ (serializable env todos ->
      exists acts : list Action,
        sync_todos env calendar server_todos todos = Ret acts).
Proof.
  split.
  - intros acts. unfold sync_todos, sync_loop.
    match goal with
    | |- context [for_each _ todos ?st] =>
        destruct (for_each (sync_one env calendar) todos st) as [[[] | x] st'] eqn:Hrun;
          [destruct (for_each_ret env calendar todos st st' Hrun) as (acts' & Hacts & Hall)
          | discriminate]
    end.
    intros H. injection H as <-. rewrite Hacts. cbn [actions app].
    clear Hrun Hacts. induction Hall as [| local a rest acts [Huid _] _ IH];
      [reflexivity | cbn [map]; rewrite Huid, IH; reflexivity].
  - intros Hser. unfold sync_todos, sync_loop.
    match goal with
    | |- context [for_each _ todos ?st] =>
        destruct (for_each_returns env calendar todos st Hser) as (st' & Hrun)
    end.
    rewrite Hrun. eexists. reflexivity.
Qed.

(** X9: a run makes at most two calls on the collaborators for each local
    todo, whatever the calls do: there is no other retry than the second
    [save] after a [TypeError]. *)
Theorem at_most_two_calls_per_todo (env : Env) (calendar : Calendar)
    (server_todos : list ServerObj) (todos : list Component) :
  length (calls (state_after env calendar server_todos todos))
  <= 2 * length todos.
Proof.
  unfold state_after, sync_loop.
  match goal with
  | |- context [for_each _ todos ?st] =>
      destruct (for_each_frame env calendar todos st) as (_ & (cs & Hcalls & Hlen) & _)
  end.
  rewrite Hcalls. cbn. exact Hlen.
Qed.

(** ** What of a local todo counts *)

(** X10: for a local todo whose UID is in the uid map, only its UID, its
    summary and the normalized value of its DUE count: another local todo
    with these three, whatever its status, description, categories or
    other properties, leaves the same state, the same action and the
    same calls.  The status that Gradescope gives never reaches a todo
    that is on the server. *)
Theorem only_uid_summary_due_count (env : Env) (calendar : Calendar)
    (local local' : Component) (u : string) (e : ServerEntry) (st : State) :
  comp_get local "UID" = Some u ->
  comp_get local' "UID" = Some u ->
  server_map st !! u = Some e ->
  text_or_empty local' "SUMMARY" = text_or_empty local "SUMMARY" ->
  _normalize_dt (DUE local') = _normalize_dt (DUE local) ->
  sync_one env calendar local' st = sync_one env calendar local st.
Proof.
  intros Hu Hu' He Hsum Hdue.
  unfold sync_one, bind, lift, lookup_entry.
  rewrite Hu, Hu', Hsum, Hdue.
  destruct (_normalize_dt (DUE local)) as [d |]; [| reflexivity].
  rewrite He. reflexivity.
Qed.

Lemma only_uid_summary_due_count_witness :
  sync_one quiet full_calendar
    (comp_set (comp_set local_hw1 "STATUS" "COMPLETED") "DESCRIPTION" "done")
    (state_after quiet full_calendar [saving remote_hw1] [])
  = sync_one quiet full_calendar local_hw1
      (state_after quiet full_calendar [saving remote_hw1] []).
Proof.
  apply (only_uid_summary_due_count quiet full_calendar local_hw1
           (comp_set (comp_set local_hw1 "STATUS" "COMPLETED") "DESCRIPTION" "done")
           "a" (entry_of (saving remote_hw1) remote_hw1));
    reflexivity.
Defined.

(** ** Local todos with the same UID *)

(** X11: creating a todo does not add it to the uid map of the run, so
    two local todos with one UID that the server does not have are both
    sent to the creating branch: in a run whose local todos can be
    serialized, each gets one of its three actions and its own call, and
    when the calendar can create and the remote side accepts, the todo
    is created twice. *)
Theorem same_uid_created_twice (env : Env) (calendar : Calendar)
    (server_todos : list ServerObj) (pre post : list Component)
    (local1 local2 : Component) (u : string) :
  comp_get local1 "UID" = Some u ->
  comp_get local2 "UID" = Some u ->
  server_map (state_after env calendar server_todos pre) !! u = None ->
  serializable env (pre ++ local1 :: local2 :: post) ->
  exists (a1 a2 : Action) (acts : list Action),
    sync_todos env calendar server_todos (pre ++ local1 :: local2 :: post)
    = Ret acts
    /\ acts !! length pre = Some a1
    /\ acts !! S (length pre) = Some a2
    /\ create_action a1
    /\ create_action a2
    /\ calls (state_after env calendar server_todos (pre ++ [local1; local2]))
       = calls (state_after env calendar server_todos pre)
         ++ match create_call calendar (todo_to_ical local1) with
            | Some c => [c]
            | None => []
            end
         ++ match create_call calendar (todo_to_ical local2) with
            | Some c => [c]
            | None => []
            end.
Proof.
  intros Hu1 Hu2 Hnone Hser.
  apply List.Forall_app in Hser. destruct Hser as [Hpre Hser].
  inversion Hser as [| ? ? Hc1 Hser2]; subst.
  inversion Hser2 as [| ? ? Hc2 Hpost]; subst.
  assert (Hpre1 : serializable env (pre ++ [local1])).
  { apply List.Forall_app. split; [exact Hpre | repeat constructor; exact Hc1]. }
  destruct (sync_one_create env calendar local1 u _ Hu1 Hnone Hc1)
    as (a1 & Hrun1 & _ & Hk1 & _).
  assert (Hst1 : state_after env calendar server_todos (pre ++ [local1])
                 = snd (sync_one env calendar local1
                          (state_after env calendar server_todos pre)))
    by (apply state_after_snoc; exact Hpre).
  rewrite Hrun1 in Hst1. cbn [snd] in Hst1.
  assert (Hnone1 :
    server_map (state_after env calendar server_todos (pre ++ [local1])) !! u = None).
  { rewrite Hst1. exact Hnone. }
  destruct (sync_one_create env calendar local2 u _ Hu2 Hnone1 Hc2)
    as (a2 & Hrun2 & _ & Hk2 & _).
  destruct (sync_todos_at env calendar server_todos pre (local2 :: post) local1
              _ a1 Hpre Hser2 Hrun1 eq_refl) as (acts & Hacts & Hat1 & _).
  destruct (sync_todos_at env calendar server_todos (pre ++ [local1]) post local2
              _ a2 Hpre1 Hpost Hrun2 eq_refl) as (acts' & Hacts' & Hat2 & _).
  rewrite <- app_assoc in Hacts'. cbn [app] in Hacts'.
  rewrite Hacts in Hacts'. injection Hacts' as <-.
  rewrite length_app in Hat2. cbn [length] in Hat2.
  rewrite Nat.add_1_r in Hat2.
  exists a1, a2, acts. repeat (split; [assumption |]).
  replace (pre ++ [local1; local2]) with ((pre ++ [local1]) ++ [local2])
    by (rewrite <- app_assoc; reflexivity).
  rewrite state_after_snoc by exact Hpre1. rewrite Hrun2. cbn [snd calls].
  rewrite Hst1. cbn [calls]. rewrite <- app_assoc. reflexivity.
Qed.

Lemma same_uid_created_twice_witness :
  sync_todos quiet full_calendar [saving remote_hw1] [local_hw2; local_hw2]
  = Ret [{| uid := Some "b"; action := "created"; detail := None |};
         {| uid := Some "b"; action := "created"; detail := None |}]
  /\ exists a1 a2 acts,
       sync_todos quiet full_calendar [saving remote_hw1]
         ([] ++ local_hw2 :: local_hw2 :: []) = Ret acts
       /\ acts !! 0%nat = Some a1 /\ acts !! 1%nat = Some a2
       /\ create_action a1 /\ create_action a2.
Proof.
  split; [reflexivity |].
  destruct (same_uid_created_twice quiet full_calendar [saving remote_hw1] [] []
              local_hw2 local_hw2 "b")
    as (a1 & a2 & acts & H1 & H2 & H3 & H4 & H5 & _);
    [reflexivity | reflexivity | reflexivity | repeat constructor |].
  exists a1, a2, acts. auto.
Defined.

(** ** A server that cannot be listed *)

Lemma empty_map_stays_empty (env : Env) (calendar : Calendar)
    (todos : list Component) (st : State) :
  server_map st = ∅ ->
  serializable env todos ->
  exists st' acts,
    for_each (sync_one env calendar) todos st = (Ret tt, st')
    /\ server_map st' = ∅
    /\ actions st' = actions st ++ acts
    /\ length acts = length todos
    /\ Forall (fun a => action a = "skipped" \/ create_action a) acts.
Proof.
  intros Hst Hser. revert st Hst.
  induction Hser as [| local rest Hc _ IH]; intros st Hst.
  - exists st, []. rewrite app_nil_r. auto.
  - assert (Hstep : exists st1 a,
      sync_one env calendar local st = (Ret tt, st1)
      /\ server_map st1 = ∅ /\ actions st1 = actions st ++ [a]
      /\ (action a = "skipped" \/ create_action a)).
    { destruct (comp_get local "UID") as [u |] eqn:Hu.
      - assert (Hn : server_map st !! u = None) by (rewrite Hst; apply lookup_empty).
        destruct (sync_one_create env calendar local u st Hu Hn Hc)
          as (a & Hrun & _ & Hk & _).
        eexists. exists a. split; [exact Hrun |]. cbn [server_map actions]. auto.
      - eexists. eexists. split.
        + unfold_sync. rewrite Hu. reflexivity.
        + cbn [server_map actions action]. auto. }
    destruct Hstep as (st1 & a & Hrun & Hm & Ha & Hk).
    destruct (IH st1 Hm) as (st2 & acts & Hrun2 & Hm2 & Ha2 & Hlen & Hk2).
    exists st2, (a :: acts). cbn [for_each]. unfold bind. rewrite Hrun.
    split; [exact Hrun2 |]. split; [exact Hm2 |].
    split; [rewrite Ha2, Ha, <- app_assoc; reflexivity |].
    split; [cbn [length]; rewrite Hlen; reflexivity | constructor; assumption].
Qed.

(** X12: when [calendar.todos()] raises and [calendar.events()] is
    missing or raises too, the run goes on with no server todo at all:
    nothing is compared, and in a run whose local todos can be
    serialized every local todo that has a UID is sent to the creating
    branch, those the server already has included. *)
Theorem unlisted_server_creates_all (env : Env) (calendar : CalendarObj)
    (todos : list Component) (e : exn) :
  c_todos calendar = Some (Raise e) ->
  c_events calendar = None \/ (exists e', c_events calendar = Some (Raise e')) ->
  list_server_todos calendar = []
  /\ (serializable env todos ->
      exists acts : list Action,
        sync_todos env (c_methods calendar) (list_server_todos calendar) todos
        = Ret acts
        /\ length acts = length todos
        /\ Forall (fun a => action a = "skipped" \/ create_action a) acts).
Proof.
  intros Ht Hev.
  assert (Hl : list_server_todos calendar = []).
  { unfold list_server_todos. rewrite Ht.
    destruct Hev as [-> | [e' ->]]; reflexivity. }
  split; [exact Hl |]. rewrite Hl. intros Hser.
  unfold sync_todos, sync_loop.
  destruct (empty_map_stays_empty env (c_methods calendar) todos
              {| server_map := build_server_map []; actions := []; calls := [] |}
              eq_refl Hser) as (st' & acts & Hrun & _ & Hacts & Hlen & Hall).
  rewrite Hrun. exists acts. cbn [actions app] in Hacts.
  split; [rewrite Hacts; reflexivity |].
  split; [exact Hlen | exact Hall].
Qed.

Lemma unlisted_server_creates_all_witness :
  list_server_todos unlistable_calendar = []
  /\ exists acts : list Action,
       sync_todos quiet (c_methods unlistable_calendar)
         (list_server_todos unlistable_calendar) [local_hw1; local_no_uid]
       = Ret acts
       /\ length acts = 2%nat
       /\ Forall (fun a => action a = "skipped" \/ create_action a) acts.
Proof.
  destruct (unlisted_server_creates_all quiet unlistable_calendar
              [local_hw1; local_no_uid] (Exn false "403 Forbidden"))
    as (Hl & Hall).
  - reflexivity.
  - right. eexists. reflexivity.
  - split; [exact Hl |]. apply Hall. repeat constructor.
Defined.

(** ** The settings and the choice of the calendar (lines 136-172) *)

(** X13: the three settings CALDAV_URL, CALDAV_USERNAME and
    CALDAV_PASSWORD are read in this order, and the first that is
    missing ends the run with a [KeyError] that names it, before the
    server is contacted and whatever the local todos are. *)
Theorem missing_setting_is_fatal (environ : gmap string string)
    (connect : string -> string -> string -> res (list CalendarObj))
    (env : Env) (todos : list Component)
    (present later : list string) (key : string) :
  ["CALDAV_URL"; "CALDAV_USERNAME"; "CALDAV_PASSWORD"] = present ++ key :: later ->
  Forall (fun k => environ !! k <> None) present ->
  environ !! key = None ->
  sync_todos_main environ connect env todos = Raise (Exn false ("'" ++ key ++ "'")%string).
Proof.
  intros Hkeys Hpresent Hkey.
  assert (Hitem : forall k, environ !! k <> None ->
                    exists v, environ_item environ k = Ret v).
  { intros k Hk. unfold environ_item. destruct (environ !! k); [eauto | contradiction]. }
  assert (Hmiss : environ_item environ key = Raise (Exn false ("'" ++ key ++ "'")%string)).
  { unfold environ_item. rewrite Hkey. reflexivity. }
  unfold sync_todos_main.
  destruct present as [| k1 [| k2 [| k3 present]]]; cbn [app] in Hkeys.
  - injection Hkeys as <- _. rewrite Hmiss. reflexivity.
  - injection Hkeys as <- <- _. inversion Hpresent as [| ? ? H1 _]; subst.
    destruct (Hitem _ H1) as [v1 ->]. cbn [res_bind]. rewrite Hmiss. reflexivity.
  - injection Hkeys as <- <- <- _.
    inversion Hpresent as [| ? ? H1 Hrest]; subst.
    inversion Hrest as [| ? ? H2 _]; subst.
    destruct (Hitem _ H1) as [v1 ->]. destruct (Hitem _ H2) as [v2 ->].
    cbn [res_bind]. rewrite Hmiss. reflexivity.
  - injection Hkeys as _ _ _ Hnil. destruct present; discriminate Hnil.
Qed.

Lemma missing_setting_is_fatal_witness :
  sync_todos_main settings_without_password account quiet [local_hw1]
  = Raise (Exn false "'CALDAV_PASSWORD'").
Proof.
  apply (missing_setting_is_fatal settings_without_password account quiet [local_hw1]
           ["CALDAV_URL"; "CALDAV_USERNAME"] [] "CALDAV_PASSWORD").
  - reflexivity.
  - repeat constructor; discriminate.
  - reflexivity.
Defined.

Lemma find_named_in (n : string) (calendars : list CalendarObj) (c : CalendarObj) :
  find_named n calendars = Some c -> In c calendars.
Proof.
  induction calendars as [| x rest IH]; cbn [find_named]; [discriminate |].
  destruct (name_matches x n).
  - intros H. injection H as <-. left. reflexivity.
  - intros H. right. apply IH. exact H.
Qed.

Lemma choose_calendar_some (calendar_name : option string)
    (first : CalendarObj) (rest : list CalendarObj) :
  exists c : CalendarObj,
    choose_calendar calendar_name (first :: rest) = Ret c /\ In c (first :: rest).
Proof.
  unfold choose_calendar.
  destruct calendar_name as [n |].
  - destruct (truthy (Some n)).
    + destruct (find_named n (first :: rest)) as [c |] eqn:Hf.
      * exists c. split; [reflexivity | eapply find_named_in; exact Hf].
      * exists first. split; [reflexivity | left; reflexivity].
    + exists first. split; [reflexivity | left; reflexivity].
  - exists first. split; [reflexivity | left; reflexivity].
Qed.

(** X14: without a calendar the run ends with "No calendars found for
    the provided account"; with at least one, a calendar is always
    chosen, and it is one of the calendars of the account. *)
Theorem chosen_calendar_is_listed (calendar_name : option string)
    (calendars : list CalendarObj) :
  (calendars = [] ->
   choose_calendar calendar_name calendars
   = Raise (Exn false "No calendars found for the provided account"))
  /\ (calendars <> [] ->
      exists c : CalendarObj,
        choose_calendar calendar_name calendars = Ret c /\ In c calendars).
Proof.
  split.
  - intros ->. reflexivity.
  - intros Hne. destruct calendars as [| first rest]; [contradiction |].
    apply choose_calendar_some.
Qed.

Lemma name_matches_iff (c : CalendarObj) (n : string) :
  n <> "" -> (name_matches c n = true <-> display_name c = Some n).
Proof.
  intros Hn. unfold name_matches. split.
  - intros H. apply andb_true_iff in H. destruct H as [_ H].
    apply bool_decide_eq_true in H. exact H.
  - intros ->. cbn [truthy]. destruct (String.eqb_spec n ""); [contradiction |].
    cbn [negb andb]. apply bool_decide_eq_true. reflexivity.
Qed.

Lemma find_named_first (n : string) (pre post : list CalendarObj) (c : CalendarObj) :
  n <> "" ->
  Forall (fun x => display_name x <> Some n) pre ->
  display_name c = Some n ->
  find_named n (pre ++ c :: post) = Some c.
Proof.
  intros Hn Hpre Hc. induction Hpre as [| x pre Hx _ IH]; cbn [app find_named].
  - apply (name_matches_iff c n Hn) in Hc. rewrite Hc. reflexivity.
  - destruct (name_matches x n) eqn:Hm; [| exact IH].
    apply (name_matches_iff x n Hn) in Hm. contradiction.
Qed.

Lemma find_named_none (n : string) (calendars : list CalendarObj) :
  n <> "" ->
  Forall (fun x => display_name x <> Some n) calendars ->
  find_named n calendars = None.
Proof.
  intros Hn Hall. induction Hall as [| x rest Hx _ IH]; cbn [find_named]; [reflexivity |].
  destruct (name_matches x n) eqn:Hm; [| exact IH].
  apply (name_matches_iff x n Hn) in Hm. contradiction.
Qed.

(** X15: with CALDAV_CALENDAR_NAME set to a name that is not empty, the
    calendar chosen is the first of the account whose display name is
    exactly that name. *)
Theorem named_calendar_is_chosen (n : string) (pre post : list CalendarObj)
    (c : CalendarObj) :
  n <> "" ->
  Forall (fun x => display_name x <> Some n) pre ->
  display_name c = Some n ->
  choose_calendar (Some n) (pre ++ c :: post) = Ret c.
Proof.
  intros Hn Hpre Hc. unfold choose_calendar.
  destruct (pre ++ c :: post) as [| first rest] eqn:Hl.
  - destruct pre; discriminate Hl.
  - rewrite <- Hl. cbn [truthy]. destruct (String.eqb_spec n ""); [contradiction |].
    cbn [negb]. rewrite (find_named_first n pre post c Hn Hpre Hc). reflexivity.
Qed.

Lemma named_calendar_is_chosen_witness :
  choose_calendar (Some "School")
    ([work_calendar] ++ school_calendar :: [unlistable_calendar])
  = Ret school_calendar.
Proof.
  apply (named_calendar_is_chosen "School" [work_calendar] [unlistable_calendar]
           school_calendar).
  - discriminate.
  - repeat constructor. discriminate.
  - reflexivity.
Defined.

(** X16: without CALDAV_CALENDAR_NAME, with an empty one, or with a name
    that no calendar of the account has, the first calendar of the
    account is chosen: a name that is not found is not an error. *)
Theorem first_calendar_by_default (calendar_name : option string)
    (first : CalendarObj) (rest : list CalendarObj) :
  calendar_name = None
  \/ calendar_name = Some ""
  \/ (exists n, calendar_name = Some n
                /\ Forall (fun x => display_name x <> Some n) (first :: rest)) ->
  choose_calendar calendar_name (first :: rest) = Ret first.
Proof.
  unfold choose_calendar.
  intros [-> | [-> | (n & -> & Hall)]]; [reflexivity | reflexivity |].
  cbn [truthy]. destruct (String.eqb_spec n "") as [-> | Hn]; [reflexivity |].
  cbn [negb]. rewrite (find_named_none n _ Hn Hall). reflexivity.
Qed.

Lemma first_calendar_by_default_witness :
  choose_calendar (Some "Home") (work_calendar :: [school_calendar])
  = Ret work_calendar.
Proof.
  apply (first_calendar_by_default (Some "Home") work_calendar [school_calendar]).
  right. right. exists "Home". split; [reflexivity |].
  repeat constructor; discriminate.
Defined.

(** X17: with the three settings there, an account that answers with
    at least one calendar, and local todos that can be serialized, the
    run returns, with one action for each local todo: no failure of
    listing, parsing, creating or saving ends it. *)
Theorem run_returns_once_connected (environ : gmap string string)
    (connect : string -> string -> string -> res (list CalendarObj))
    (env : Env) (todos : list Component) (url username password : string)
    (first : CalendarObj) (rest : list CalendarObj) :
  environ !! "CALDAV_URL" = Some url ->
  environ !! "CALDAV_USERNAME" = Some username ->
  environ !! "CALDAV_PASSWORD" = Some password ->
  connect url username password = Ret (first :: rest) ->
  serializable env todos ->
  exists (calendar : CalendarObj) (acts : list Action),
    choose_calendar (environ !! "CALDAV_CALENDAR_NAME") (first :: rest) = Ret calendar
    /\ In calendar (first :: rest)
    /\ sync_todos_main environ connect env todos = Ret acts
    /\ sync_todos env (c_methods calendar) (list_server_todos calendar) todos = Ret acts
    /\ length acts = length todos.
Proof.
  intros Hurl Huser Hpass Hconn Hser.
  destruct (choose_calendar_some (environ !! "CALDAV_CALENDAR_NAME") first rest)
    as (calendar & Hch & Hin).
  destruct (for_each_spec env (c_methods calendar) todos
              {| server_map := build_server_map (list_server_todos calendar);
                 actions := []; calls := [] |} Hser)
    as (st' & acts & Hrun & Hacts & Hlen & _).
  assert (Hsync :
    sync_todos env (c_methods calendar) (list_server_todos calendar) todos
    = Ret (actions st')).
  { unfold sync_todos, sync_loop. rewrite Hrun. reflexivity. }
  exists calendar, (actions st').
  split; [exact Hch |]. split; [exact Hin |]. split; [| split; [exact Hsync |]].
  - unfold sync_todos_main, environ_item.
    rewrite Hurl, Huser, Hpass. cbn [res_bind]. rewrite Hconn. cbn [res_bind].
    rewrite Hch. cbn [res_bind]. exact Hsync.
  - rewrite Hacts. cbn. exact Hlen.
Qed.

(** The run of the sample account: the school calendar is chosen and HW1,
    cancelled there, stays cancelled. *)
Lemma run_returns_once_connected_witness :
  sync_todos_main settings account failing [local_hw1; local_hw2]
  = Ret [{| uid := Some "a"; action := "preserved_server_status";
            detail := Some ("server_status", "CANCELLED") |};
         {| uid := Some "b"; action := "create_failed";
            detail := Some ("error", "503 Service Unavailable") |}]
  /\ exists calendar acts,
       choose_calendar (settings !! "CALDAV_CALENDAR_NAME")
         (work_calendar :: [school_calendar; unlistable_calendar]) = Ret calendar
       /\ sync_todos_main settings account failing [local_hw1; local_hw2] = Ret acts
       /\ length acts = 2%nat.
Proof.
  split; [reflexivity |].
  destruct (run_returns_once_connected settings account failing
              [local_hw1; local_hw2] "https://dav.example/" "ada" "secret"
              work_calendar [school_calendar; unlistable_calendar])
    as (calendar & acts & Hch & _ & Hrun & _ & Hlen);
    [reflexivity | reflexivity | reflexivity | reflexivity | repeat constructor |].
  exists calendar, acts. auto.
Defined.

(** ** The todos of Gradescope (gradescope.py) *)

(** X18: the UID that [make_todo] gives depends on the assignment id
    alone, and two assignments have todos with the same UID exactly when
    they have the same id; the UID is never empty. *)
Theorem make_todo_uid_is_the_id (course_id1 course_id2 : string)
    (course1 course2 : Course) (a1 a2 : Assignment) :
  (comp_get (make_todo course_id1 course1 a1) "UID"
   = comp_get (make_todo course_id2 course2 a2) "UID"
   <-> assignment_id a1 = assignment_id a2)
  /\ truthy (comp_get (make_todo course_id1 course1 a1) "UID") = true.
Proof.
  assert (Huid : forall cid c a,
    comp_get (make_todo cid c a) "UID" = Some ("gradescope-" ++ assignment_id a)%string).
  { intros cid c a. unfold make_todo, comp_get, comp_set, set_categories, set_end, Todo.
    norm_keys. cbn [props]. reflexivity. }
  rewrite !Huid. split.
  - split.
    + intros H. injection H as H. exact H.
    + intros ->. reflexivity.
  - reflexivity.
Qed.

(** X19: todos made by [make_todo] are never skipped by [sync_todos]:
    in a list returned, each has an action other than [skipped], whose
    [uid] is "gradescope-" followed by the id of its assignment; and a
    list is returned when the todos can be serialized. *)
Theorem gradescope_todos_never_skipped (env : Env) (calendar : Calendar)
    (server_todos : list ServerObj)
    (items : list (string * Course * Assignment)) :
  (forall acts : list Action,
      sync_todos env calendar server_todos
        (map (fun item => make_todo (fst (fst item)) (snd (fst item)) (snd item)) items)
      = Ret acts ->
      Forall2 (fun item a =>
                 uid a = Some ("gradescope-" ++ assignment_id (snd item))%string
                 /\ action a <> "skipped")
              items acts)
  /\ (serializable env
        (map (fun item => make_todo (fst (fst item)) (snd (fst item)) (snd item)) items) ->
      exists acts : list Action,
        sync_todos env calendar server_todos
          (map (fun item => make_todo (fst (fst item)) (snd (fst item)) (snd item)) items)
        = Ret acts).
Proof.
  split.
  - intros acts. unfold sync_todos, sync_loop.
    match goal with
    | |- context [for_each _ ?todos ?st] =>
        destruct (for_each (sync_one env calendar) todos st) as [[[] | x] st'] eqn:Hrun;
          [destruct (for_each_ret env calendar todos st st' Hrun) as (acts' & Hacts & Hall)
          | discriminate]
    end.
    intros H. injection H as <-. rewrite Hacts. cbn [actions app].
    clear Hrun Hacts. revert acts' Hall.
    induction items as [| item rest IH]; intros acts Hall; cbn [map] in Hall.
    + inversion Hall. constructor.
    + inversion Hall as [| ? a ? acts' [Huid Hskip] Hrest]; subst.
      constructor; [| apply IH; exact Hrest].
      assert (Hu : comp_get (make_todo (fst (fst item)) (snd (fst item)) (snd item)) "UID"
                   = Some ("gradescope-" ++ assignment_id (snd item))%string).
      { unfold make_todo, comp_get, comp_set, set_categories, set_end, Todo.
        norm_keys. cbn [props]. reflexivity. }
      rewrite Hu in Huid, Hskip. split; [exact Huid |].
      intros Hs. apply Hskip in Hs. discriminate Hs.
  - intros Hser. unfold sync_todos, sync_loop.
    match goal with
    | |- context [for_each _ ?todos ?st] =>
        destruct (for_each_returns env calendar todos st Hser) as (st' & Hrun)
    end.
    rewrite Hrun. eexists. reflexivity.
Qed.

(** ** The comparison of due dates (lines 35-59 and 239) *)

Lemma same_fields_refl (t : datetime) : same_fields t t = true.
Proof. unfold same_fields. rewrite !Z.eqb_refl. reflexivity. Qed.

(** A date-time is equal to itself, whatever its tzinfo gives. *)
Lemma datetime_eq_refl (t : datetime) : datetime_eq t t = true.
Proof.
  unfold datetime_eq, same_tzinfo. destruct (tzinfo t) as [z |].
  - rewrite N.eqb_refl. apply same_fields_refl.
  - apply same_fields_refl.
Qed.

Lemma opt_datetime_eq_refl (x : option datetime) : opt_datetime_eq x x = true.
Proof. destruct x; [apply datetime_eq_refl | reflexivity]. Qed.

(** [==] on samples.  Two zones: the same instant is equal, whatever the
    fields; the same fields with the same offset are equal.  One tzinfo
    object: only the fields count, so the two passes of a repeated hour
    are equal.  A date-time in a repeated hour is equal to no date-time
    of another zone, the same instant included.  A date-time without a
    zone is equal to none with an offset. *)
Example datetime_eq_samples :
  datetime_eq march_1_midnight_utc (at_zone feb_29_19h est) = true
  /\ datetime_eq (at_zone march_1_midnight gmt) march_1_midnight_utc = true
  /\ datetime_eq (at_zone feb_29_19h utc) (at_zone feb_29_19h est) = false
  /\ datetime_eq (at_zone nov_3_1h30 eastern_first) (at_zone nov_3_1h30 eastern_second)
     = true
  /\ datetime_eq (at_zone nov_3_1h30 eastern_first) (at_zone nov_3_5h30 utc) = false
  /\ datetime_eq (at_zone nov_3_5h30 utc) (at_zone nov_3_1h30 eastern_first) = false
  /\ datetime_eq march_1_midnight march_1_midnight_utc = false
  /\ datetime_eq march_1_midnight_utc march_1_midnight = false.
Proof. repeat split. Qed.

(** A date-time without an offset is equal to none with an offset that
    is not of the same tzinfo object. *)
Lemma datetime_eq_mixed (t1 t2 : datetime) :
  (utcoffset t1 = None /\ utcoffset t2 <> None)
  \/ (utcoffset t1 <> None /\ utcoffset t2 = None) ->
  same_tzinfo t1 t2 = false ->
  datetime_eq t2 t1 = false.
Proof.
  unfold datetime_eq, same_tzinfo, utcoffset, utcoffset_other_fold.
  intros Hoff Hz.
  destruct (tzinfo t1) as [z1 |], (tzinfo t2) as [z2 |]; try discriminate Hz;
    cbn in Hoff.
  - rewrite N.eqb_sym, Hz.
    destruct Hoff as [[H1 H2] | [H1 H2]];
      destruct (offset z1), (offset z2); try congruence;
      destruct (offset_other_fold z1), (offset_other_fold z2); cbn;
      repeat case_match; reflexivity.
  - destruct Hoff as [[H1 H2] | [H1 H2]]; [congruence |].
    destruct (offset z1); [| congruence].
    destruct (offset_other_fold z1); cbn; repeat case_match; reflexivity.
  - destruct Hoff as [[H1 H2] | [H1 H2]]; [| congruence].
    destruct (offset z2); [| congruence].
    destruct (offset_other_fold z2); cbn; repeat case_match; reflexivity.
Qed.

(** X20: a due date with an offset from UTC on one side and a date, or a
    date-time without one, on the other (the two not sharing a tzinfo
    object) never compare equal, so a todo found on the server with such
    a pair of due dates is marked at every run: its STATUS is set to
    NEEDS-ACTION and its action is one of the marking branch. *)
Theorem aware_and_naive_always_differ (env : Env) (calendar : Calendar)
    (local : Component) (u : string) (e : ServerEntry) (st : State)
    (t1 t2 : datetime) :
  comp_get local "UID" = Some u ->
  server_map st !! u = Some e ->
  normalized (DUE local) = Some t1 ->
  normalized (DUE (server_vtodo e)) = Some t2 ->
  (utcoffset t1 = None /\ utcoffset t2 <> None)
  \/ (utcoffset t1 <> None /\ utcoffset t2 = None) ->
  same_tzinfo t1 t2 = false ->
  exists (a : Action) (cs : list Call),
    sync_one env calendar local st
    = (Ret tt,
       {| server_map := <[u := with_needs_action e]> (server_map st);
          actions := actions st ++ [a];
          calls := calls st ++ cs |})
    /\ mark_action a.
Proof.
  intros Hu He H1 H2 Hoff Hz.
  assert (Hdiff :
    opt_datetime_eq (normalized (DUE (server_vtodo e))) (normalized (DUE local))
    = false).
  { rewrite H1, H2. cbn [opt_datetime_eq]. apply datetime_eq_mixed; assumption. }
  destruct (sync_one_mark env calendar local u e st Hu He (or_intror Hdiff))
    as (a & cs & Hrun & _ & Hact & _).
  exists a, cs. split; [exact Hrun |].
  unfold mark_action. rewrite Hact.
  destruct (update_failure _ _ _ _); [auto |].
  destruct (handed_over _ _ _ _ _); auto.
Qed.

(** HW1, completed on a server that gives its due date back in UTC, is
    set to NEEDS-ACTION again by the date that Gradescope gives. *)
Lemma aware_and_naive_always_differ_witness :
  exists (a : Action) (cs : list Call),
    sync_one quiet full_calendar local_hw1
      (state_after quiet full_calendar [saving remote_hw1_utc] [])
    = (Ret tt,
       {| server_map :=
            <["a" := with_needs_action (entry_of (saving remote_hw1_utc) remote_hw1_utc)]>
              (server_map (state_after quiet full_calendar [saving remote_hw1_utc] []));
          actions := [] ++ [a];
          calls := [] ++ cs |})
    /\ mark_action a.
Proof.
  apply (aware_and_naive_always_differ quiet full_calendar local_hw1 "a"
           (entry_of (saving remote_hw1_utc) remote_hw1_utc)
           (state_after quiet full_calendar [saving remote_hw1_utc] [])
           march_1_midnight march_1_midnight_utc);
    try reflexivity.
  left. split; [reflexivity | discriminate].
Defined.

(** ** [sync] and [sync_course] (gradescope.py, lines 9-20) *)

Lemma sync_courses_items (connection : GSConnection)
    (courses : list (string * CourseEntry)) (todos : list Component) :
  sync_courses connection courses = Ret todos ->
  forall t : Component,
    In t todos <->
    exists (course_id : string) (ce : CourseEntry)
           (assignments : list Assignment) (a : Assignment),
      In (course_id, ce) courses
      /\ get_assignments connection course_id = Ret assignments
      /\ In a assignments
      /\ t = make_todo course_id (course ce) a.
Proof.
  revert todos. induction courses as [| [cid ce] rest IH]; intros todos H t.
  - cbn in H. injection H as <-. split; [intros [] |].
    intros (? & ? & ? & ? & [] & _).
  - cbn [sync_courses] in H. unfold sync_course in H.
    destruct (get_assignments connection cid) as [asg |] eqn:Hga;
      cbn [res_bind] in H; [| discriminate].
    destruct (sync_courses connection rest) as [others |] eqn:Hrest;
      cbn [res_bind] in H; [| discriminate].
    injection H as <-. rewrite in_app_iff, in_map_iff, (IH others eq_refl t).
    split.
    + intros [(a & <- & Ha) | (cid' & ce' & asg' & a & Hin & Hga' & Ha & ->)].
      * exists cid, ce, asg, a. repeat split; auto. left. reflexivity.
      * exists cid', ce', asg', a. repeat split; auto. right. exact Hin.
    + intros (cid' & ce' & asg' & a & [Heq | Hin] & Hga' & Ha & ->).
      * injection Heq as <- <-. left. exists a. split; [reflexivity |].
        rewrite Hga in Hga'. injection Hga' as <-. exact Ha.
      * right. exists cid', ce', asg', a. auto.
Qed.

Lemma sync_logged_in (environ : gmap string string) (this_year : string)
    (connection : GSConnection) (email password term : string)
    (courses : list (string * CourseEntry)) :
  environ !! "GRADESCOPE_EMAIL" = Some email ->
  environ !! "GRADESCOPE_PASSWORD" = Some password ->
  login connection email password = None ->
  environ !! "GRADESCOPE_SEMESTER" = Some term ->
  get_courses connection = Ret courses ->
  sync environ this_year connection
  = sync_courses connection
      (List.filter (fun item => String.eqb (semester (snd item)) term
                                && String.eqb (course_year (snd item)) this_year)
                   courses).
Proof.
  intros He Hp Hl Ht Hc. unfold sync, environ_item.
  rewrite He, Hp. cbn [res_bind]. rewrite Hl. cbn [res_bind].
  rewrite Ht. cbn [res_bind]. rewrite Hc. reflexivity.
Qed.

(** X22: when [sync] returns, the todos it returns are exactly the todos
    that [make_todo] makes of the assignments of the courses whose
    semester is GRADESCOPE_SEMESTER and whose year is the current year:
    no assignment of such a course is left out and no other course
    contributes. *)
Theorem sync_gives_this_term (environ : gmap string string) (this_year : string)
    (connection : GSConnection) (email password term : string)
    (courses : list (string * CourseEntry)) (todos : list Component) :
  environ !! "GRADESCOPE_EMAIL" = Some email ->
  environ !! "GRADESCOPE_PASSWORD" = Some password ->
  login connection email password = None ->
  environ !! "GRADESCOPE_SEMESTER" = Some term ->
  get_courses connection = Ret courses ->
  sync environ this_year connection = Ret todos ->
  forall t : Component,
    In t todos <->
    exists (course_id : string) (ce : CourseEntry)
           (assignments : list Assignment) (a : Assignment),
      In (course_id, ce) courses
      /\ semester ce = term
      /\ course_year ce = this_year
      /\ get_assignments connection course_id = Ret assignments
      /\ In a assignments
      /\ t = make_todo course_id (course ce) a.
Proof.
  intros He Hp Hl Ht Hc Hsync t.
  rewrite (sync_logged_in _ _ _ _ _ _ _ He Hp Hl Ht Hc) in Hsync.
  rewrite (sync_courses_items _ _ _ Hsync t).
  split.
  - intros (cid & ce & asg & a & Hin & Hga & Ha & ->).
    apply filter_In in Hin. destruct Hin as [Hin Hf]. cbn [snd] in Hf.
    apply andb_true_iff in Hf. destruct Hf as [Hs Hy].
    apply String.eqb_eq in Hs, Hy.
    exists cid, ce, asg, a. repeat split; auto.
  - intros (cid & ce & asg & a & Hin & Hs & Hy & Hga & Ha & ->).
    exists cid, ce, asg, a. repeat split; auto.
    apply filter_In. split; [exact Hin |]. cbn [snd].
    rewrite Hs, Hy, !String.eqb_refl. reflexivity.
Qed.

(** X23: [sync] asks for the assignments of the courses of this term
    only: what [get_assignments] would give, or raise, for any other
    course does not change what [sync] returns or raises. *)
Theorem other_courses_are_not_asked (environ : gmap string string)
    (this_year : string) (connection connection' : GSConnection) (term : string) :
  environ !! "GRADESCOPE_SEMESTER" = Some term ->
  login connection' = login connection ->
  get_courses connection' = get_courses connection ->
  (forall (courses : list (string * CourseEntry)) (course_id : string)
          (ce : CourseEntry),
      get_courses connection = Ret courses ->
      In (course_id, ce) courses ->
      semester ce = term ->
      course_year ce = this_year ->
      get_assignments connection' course_id = get_assignments connection course_id) ->
  sync environ this_year connection' = sync environ this_year connection.
Proof.
  intros Ht Hl Hc Hga. unfold sync, environ_item.
  rewrite Ht, Hl, Hc.
  destruct (environ !! "GRADESCOPE_EMAIL") as [email |]; [| reflexivity].
  destruct (environ !! "GRADESCOPE_PASSWORD") as [password |]; [| reflexivity].
  cbn [res_bind].
  destruct (login connection email password); [reflexivity |]. cbn [res_bind].
  destruct (get_courses connection) as [courses |] eqn:Hcs; [| reflexivity].
  cbn [res_bind].
  assert (Hsame : forall cs,
    (forall cid ce, In (cid, ce) cs -> In (cid, ce) courses
                                       /\ semester ce = term /\ course_year ce = this_year) ->
    sync_courses connection' cs = sync_courses connection cs).
  { induction cs as [| [cid ce] rest IH]; intros Hin; [reflexivity |].
    cbn [sync_courses]. unfold sync_course.
    destruct (Hin cid ce (or_introl eq_refl)) as (Hc1 & Hs & Hy).
    rewrite (Hga courses cid ce eq_refl Hc1 Hs Hy).
    rewrite IH; [reflexivity |].
    intros cid' ce' H'. apply Hin. right. exact H'. }
  apply Hsame. intros cid ce Hin.
  apply filter_In in Hin. destruct Hin as [Hin Hf]. cbn [snd] in Hf.
  apply andb_true_iff in Hf. destruct Hf as [Hs Hy].
  apply String.eqb_eq in Hs, Hy. auto.
Qed.

(** X24: when the assignments of a course of this term cannot be read,
    [sync] ends with that exception and returns no todo at all, those of
    the courses read before it included. *)
Theorem unreadable_course_ends_sync (environ : gmap string string)
    (this_year : string) (connection : GSConnection)
    (email password term : string) (courses : list (string * CourseEntry))
    (read later : list (string * CourseEntry)) (course_id : string)
    (ce : CourseEntry) (x : exn) :
  environ !! "GRADESCOPE_EMAIL" = Some email ->
  environ !! "GRADESCOPE_PASSWORD" = Some password ->
  login connection email password = None ->
  environ !! "GRADESCOPE_SEMESTER" = Some term ->
  get_courses connection = Ret courses ->
  List.filter (fun item => String.eqb (semester (snd item)) term
                           && String.eqb (course_year (snd item)) this_year)
              courses
  = read ++ (course_id, ce) :: later ->
  Forall (fun item => exists assignments,
            get_assignments connection (fst item) = Ret assignments) read ->
  get_assignments connection course_id = Raise x ->
  sync environ this_year connection = Raise x.
Proof.
  intros He Hp Hl Ht Hc Hf Hread Hx.
  rewrite (sync_logged_in _ _ _ _ _ _ _ He Hp Hl Ht Hc), Hf.
  clear Hf. induction Hread as [| [cid' ce'] read [asg Hasg] _ IH];
    cbn [app sync_courses]; unfold sync_course.
  - rewrite Hx. reflexivity.
  - cbn [fst] in Hasg. rewrite Hasg. cbn [res_bind]. rewrite IH. reflexivity.
Qed.

(** [sync] reads GRADESCOPE_EMAIL and GRADESCOPE_PASSWORD, logs in,
    and only then reads GRADESCOPE_SEMESTER: a missing address or
    password ends it with a [KeyError] before any login, a failed login
    ends it with the exception of the login even when the semester is
    missing, and a missing semester is found after the login only. *)
Lemma sync_settings_in_order (environ : gmap string string) (this_year : string)
    (connection : GSConnection) :
  (environ !! "GRADESCOPE_EMAIL" = None ->
   sync environ this_year connection = Raise (Exn false "'GRADESCOPE_EMAIL'"))
  /\ (forall email : string,
        environ !! "GRADESCOPE_EMAIL" = Some email ->
        environ !! "GRADESCOPE_PASSWORD" = None ->
        sync environ this_year connection = Raise (Exn false "'GRADESCOPE_PASSWORD'"))
  /\ (forall (email password : string) (x : exn),
        environ !! "GRADESCOPE_EMAIL" = Some email ->
        environ !! "GRADESCOPE_PASSWORD" = Some password ->
        login connection email password = Some x ->
        sync environ this_year connection = Raise x)
  /\ (forall email password : string,
        environ !! "GRADESCOPE_EMAIL" = Some email ->
        environ !! "GRADESCOPE_PASSWORD" = Some password ->
        login connection email password = None ->
        environ !! "GRADESCOPE_SEMESTER" = None ->
        sync environ this_year connection
        = Raise (Exn false "'GRADESCOPE_SEMESTER'")).
Proof.
  unfold sync, environ_item. repeat split.
  - intros ->. reflexivity.
  - intros email -> ->. reflexivity.
  - intros email password x -> -> Hl. cbn [res_bind]. rewrite Hl. reflexivity.
  - intros email password -> -> Hl ->. cbn [res_bind]. rewrite Hl. reflexivity.
Qed.

(** The sample account: the todos of Algebra and Logic, in this order,
    and nothing of the course of last year. *)
Lemma sync_gives_this_term_witness :
  sync gradescope_settings "2024" gradescope
  = Ret [make_todo "7" (course algebra) hw1; make_todo "8" (course logic) quiz]
  /\ (In (make_todo "8" (course logic) quiz)
         [make_todo "7" (course algebra) hw1; make_todo "8" (course logic) quiz]
      <-> exists course_id ce assignments a,
            In (course_id, ce) [("7", algebra); ("5", old_course); ("8", logic)]
            /\ semester ce = "Spring" /\ course_year ce = "2024"
            /\ get_assignments gradescope course_id = Ret assignments
            /\ In a assignments
            /\ make_todo "8" (course logic) quiz = make_todo course_id (course ce) a).
Proof.
  split; [reflexivity |].
  apply (sync_gives_this_term gradescope_settings "2024" gradescope
           "ada@example.edu" "secret" "Spring"
           [("7", algebra); ("5", old_course); ("8", logic)]
           [make_todo "7" (course algebra) hw1; make_todo "8" (course logic) quiz]);
    reflexivity.
Defined.

Lemma other_courses_are_not_asked_witness :
  sync gradescope_settings "2024"
    {| login := login gradescope; get_courses := get_courses gradescope;
       get_assignments := fun course_id =>
         if String.eqb course_id "5" then Ret [quiz]
         else get_assignments gradescope course_id |}
  = sync gradescope_settings "2024" gradescope.
Proof.
  apply (other_courses_are_not_asked gradescope_settings "2024" gradescope
           {| login := login gradescope; get_courses := get_courses gradescope;
              get_assignments := fun course_id =>
                if String.eqb course_id "5" then Ret [quiz]
                else get_assignments gradescope course_id |}
           "Spring"); try reflexivity.
  intros courses course_id ce Hc Hin Hs Hy.
  injection Hc as <-. cbn [get_assignments].
  destruct Hin as [H | [H | [H | []]]]; injection H as <- <-;
    first [reflexivity | discriminate Hs].
Defined.

Lemma unreadable_course_ends_sync_witness :
  sync gradescope_settings "2024" gradescope_down
  = Raise (Exn false "course archived").
Proof.
  apply (unreadable_course_ends_sync gradescope_settings "2024" gradescope_down
           "ada@example.edu" "secret" "Spring"
           [("7", algebra); ("5", old_course); ("8", logic)]
           [("7", algebra)] [] "8" logic (Exn false "course archived"));
    try reflexivity.
  repeat constructor. exists [hw1]. reflexivity.
Defined.

(** ** The order of the server todos *)

Lemma add_server_todo_entry (m : gmap string ServerEntry) (s : ServerObj) :
  add_server_todo m s
  = match entry_for s with
    | Some (u, e) => <[u := e]> m
    | None => m
    end.
Proof.
  unfold add_server_todo, entry_for.
  destruct (_extract_vtodo_and_calendar s) as [[[b v] a] | x]; [| reflexivity].
  destruct (comp_get v "UID") as [u |]; [| reflexivity].
  destruct (truthy (Some u)); reflexivity.
Qed.

Lemma build_server_map_list (ss : list ServerObj) :
  build_server_map ss = list_to_map (rev (omap entry_for ss)).
Proof.
  induction ss as [| s ss IH] using rev_ind; [reflexivity |].
  unfold build_server_map in *. rewrite fold_left_app. cbn [fold_left].
  rewrite IH, add_server_todo_entry, omap_app, rev_app_distr.
  destruct (entry_for s) as [[u e] |] eqn:He; cbn; rewrite He; reflexivity.
Qed.

Lemma entry_keys (ss : list ServerObj) :
  (omap entry_for ss).*1 = omap entry_key ss.
Proof.
  induction ss as [| s ss IH]; [reflexivity |].
  cbn. unfold entry_key at 1.
  destruct (entry_for s) as [[u e] |]; cbn; rewrite <- IH; reflexivity.
Qed.

(** X25: when no two server todos enter the uid map under the same UID,
    the order in which the server lists them does not count: a
    permutation of the list gives the same uid map, and the same result
    of [sync_todos] for any local todos. *)
Theorem server_order_does_not_count (env : Env) (calendar : Calendar)
    (server_todos server_todos' : list ServerObj) (todos : list Component) :
  server_todos ≡ₚ server_todos' ->
  NoDup (omap entry_key server_todos) ->
  build_server_map server_todos' = build_server_map server_todos
  /\ sync_todos env calendar server_todos' todos
     = sync_todos env calendar server_todos todos.
Proof.
  intros Hperm Hnodup.
  assert (Hmap : build_server_map server_todos' = build_server_map server_todos).
  { rewrite !build_server_map_list. symmetry. apply list_to_map_proper.
    - rewrite <- Permutation_rev, entry_keys. exact Hnodup.
    - rewrite <- !Permutation_rev, Hperm. reflexivity. }
  split; [exact Hmap |].
  unfold sync_todos, sync_loop. rewrite Hmap. reflexivity.
Qed.

Lemma server_order_does_not_count_witness :
  build_server_map [event_only; saving remote_hw1]
  = build_server_map [saving remote_hw1; event_only]
  /\ sync_todos quiet full_calendar [event_only; saving remote_hw1] [local_hw1]
     = sync_todos quiet full_calendar [saving remote_hw1; event_only] [local_hw1].
Proof.
  apply (server_order_does_not_count quiet full_calendar
           [saving remote_hw1; event_only] [event_only; saving remote_hw1]
           [local_hw1]).
  - apply Permutation_swap.
  - vm_compute. repeat constructor. intros H. inversion H.
Defined.
